(** * blog.mbktech: storage facade and dashboard notification helper

    A shallow embedding of the two source files of the repository:

    - the server-side storage facade ([uploadFile], [downloadFile],
      [deleteFile], [deleteFiles], [getFileMetadata], [fileExists],
      [getFileSize], [generateSignedUrl]), in [Module Storage];
    - the browser-side helper ([showNotification], [setLoading],
      [fetchWithFeedback]), in [Module Dashboard].

    Asynchronous functions are modelled in a state-and-exception monad: a
    promise that resolves is [Return], a promise that rejects is [Throw].
    The remote object store, the URL signer, the clock and the network are
    oracles of the environment; every call made to them is recorded. *)

From stdpp Require Import base option list strings gmap pretty.
From Equations Require Import Equations.
From Stdlib Require Import Ascii.


(** ** JavaScript values shared by both files *)

(** The double-quote character, for the markup literals of the source. *)
Definition dq : string :=
  String (Ascii.Ascii false true false false false true false false) EmptyString.

(** A key argument as the callers can pass it: absent ([undefined]),
    [null], or a string. *)
Inductive JsKey :=
| KUndefined
| KNull
| KStr (s : string).

#[global] Instance JsKey_eq_dec : EqDecision JsKey.
Proof. solve_decision. Defined.

(** JavaScript truthiness of a string: every string but the empty one. *)
Definition truthy_string (s : string) : bool :=
  match s with
  | EmptyString => false
  | String _ _ => true
  end.

(** [!key] is [negb (truthy key)]. *)
Definition truthy (k : JsKey) : bool :=
  match k with
  | KStr s => truthy_string s
  | KUndefined | KNull => false
  end.

(** An empty or absent key: [undefined], [null] or the empty string. *)
Definition empty_or_absent (key : JsKey) : Prop :=
  key = KUndefined ∨ key = KNull ∨ key = KStr EmptyString.

(** Template-literal rendering of a key, as in [`File not found: ${key}`]. *)
Definition key_toString (k : JsKey) : string :=
  match k with
  | KUndefined => "undefined"
  | KNull => "null"
  | KStr s => s
  end.

(** [a || b] on optional strings: the first truthy operand, else the last. *)
Definition or_else (a : option string) (b : string) : string :=
  match a with
  | Some s => if truthy_string s then s else b
  | None => b
  end.

(** [hay.includes(needle)]. *)
Fixpoint includes (hay needle : string) : bool :=
  String.prefix needle hay ||
  match hay with
  | EmptyString => false
  | String _ rest => includes rest needle
  end.

(** An [Error] object: its [name] and its [message]. *)
Record JsError := mkJsError { name : string; message : string }.

(** [new Error(msg)]. *)
Definition Error (msg : string) : JsError :=
  {| name := "Error"; message := msg |}.

(** How a call settles: it returns (the promise resolves) or it throws
    (the promise rejects). *)
Inductive Completion (A : Type) :=
| Return (a : A)
| Throw (e : JsError).
Arguments Return {A} a.
Arguments Throw {A} e.

(** ** The monad of effectful code over a world [W] *)

Definition M (W A : Type) : Type := W → Completion A * W.

#[global] Instance M_ret {W} : MRet (M W) := λ A a w, (Return a, w).

#[global] Instance M_bind {W} : MBind (M W) := λ A B f m w,
  match m w with
  | (Return a, w') => f a w'
  | (Throw e, w') => (Throw e, w')
  end.

Definition throw {W A} (e : JsError) : M W A := λ w, (Throw e, w).

(** [try { body } catch (error) { handler error }]. *)
Definition try_catch {W A} (body : M W A) (handler : JsError → M W A) : M W A :=
  λ w,
    match body w with
    | (Return a, w') => (Return a, w')
    | (Throw e, w') => handler e w'
    end.

(** [try { body } finally { fin }], for a [fin] that does not return. *)
Definition try_finally {W A} (body : M W A) (fin : M W unit) : M W A :=
  λ w,
    let '(c, w') := body w in
    match fin w' with
    | (Return _, w'') => (c, w'')
    | (Throw e, w'') => (Throw e, w'')
    end.

(** ** The storage facade *)

Module Storage.

Definition Buffer := list Byte.byte.

(** *** Commands of the SDK *)

Record PutObjectInput := {
  put_Bucket : string;
  put_Key : JsKey;
  put_Body : option Buffer;
  put_ContentType : option string;
  put_CacheControl : option string;
  put_Metadata : option (gmap string string);
  put_ServerSideEncryption : option string;
  put_StorageClass : option string
}.

Record GetObjectInput := {
  get_Bucket : string;
  get_Key : JsKey;
  get_Range : option string;
  get_IfNoneMatch : option string;
  get_IfModifiedSince : option string;
  get_ResponseCacheControl : option string;
  get_ResponseContentType : option string
}.

Inductive Command :=
| PutObjectCommand (input : PutObjectInput)
| GetObjectCommand (input : GetObjectInput)
| DeleteObjectCommand (Bucket : string) (Key : JsKey)
| DeleteObjectsCommand (Bucket : string) (Objects : list JsKey) (Quiet : bool)
| HeadObjectCommand (Bucket : string) (Key : JsKey).

(** *** Outputs of the SDK: the fields the facade reads *)

Record DeletedObject := { deleted_Key : string }.

Record ObjectError := { err_Key : string; err_Code : string; err_Message : string }.

Record SdkOutput := {
  ContentLength : option Z;
  Deleted : option (list DeletedObject);
  Errors : option (list ObjectError)
}.

(** *** The environment: the remote service, the signer, the clock *)

Class Backend (Env : Type) := {
  (** [r2Client.send(command)]: the request goes to the service. *)
  send : Command → Env → Completion SdkOutput * Env;
  (** [await import('@aws-sdk/s3-request-presigner')]. *)
  importPresigner : Env → Completion unit * Env;
  (** [getSignedUrl(r2Client, command, { expiresIn })]. *)
  getSignedUrl : Command → Z → Env → Completion string * Env;
  (** [Date.now()]: reading the clock. *)
  Date_now : Env → Z * Env;
  (** [new Date(ms).toISOString()]. *)
  toISOString : Z → string;
  (** [r2Config.BUCKET_NAME]. *)
  BUCKET_NAME : string
}.

(** A call that left the process towards the SDK. *)
Inductive RemoteCall :=
| Sent (c : Command)
| Signed (c : Command) (expiresIn : Z).

(** The object identifiers a call submits: the [Objects] of a batch
    deletion, none for any other call. *)
Definition submittedObjects (call : RemoteCall) : list JsKey :=
  match call with
  | Sent (DeleteObjectsCommand _ Objects _) => Objects
  | _ => []
  end.

Record World (Env : Type) := mkWorld {
  env : Env;
  calls : list RemoteCall
}.
Arguments mkWorld {Env} env calls.
Arguments env {Env} w.
Arguments calls {Env} w.

Section Facade.
Context {Env : Type} `{!Backend Env}.

Local Abbreviation W := (World Env).

Definition r2Client_send (c : Command) : M W SdkOutput :=
  λ w,
    let '(r, e') := send c (env w) in
    (r, {| env := e'; calls := calls w ++ [Sent c] |}).

Definition import_presigner : M W unit :=
  λ w,
    let '(r, e') := importPresigner (env w) in
    (r, {| env := e'; calls := calls w |}).

Definition presign (c : Command) (expiresIn : Z) : M W string :=
  λ w,
    let '(r, e') := getSignedUrl c expiresIn (env w) in
    (r, {| env := e'; calls := calls w ++ [Signed c expiresIn] |}).

Definition now : M W Z :=
  λ w,
    let '(t, e') := Date_now (env w) in
    (Return t, {| env := e'; calls := calls w |}).

(** [new Date().toISOString()]. *)
Definition nowISO : M W string := t ← now; mret (toISOString t).

(** **** uploadFile *)

Record UploadOptions := {
  opt_metadata : option (gmap string string);
  opt_cacheControl : option string;
  opt_storageClass : option string;
  opt_serverSideEncryption : option string
}.

(** [options = {}]. *)
Definition no_options : UploadOptions :=
  {| opt_metadata := None; opt_cacheControl := None;
     opt_storageClass := None; opt_serverSideEncryption := None |}.

Record UploadResult := {
  up_sdk : SdkOutput;
  up_fileSize : nat;
  up_key : JsKey;
  up_contentType : option string;
  up_uploadedAt : string
}.

(** The spread [{ ...target, ...source }]: every entry of [source] is
    written into [target], over an entry of the same name. *)
Definition spread (source target : gmap string string) : gmap string string :=
  map_fold (λ k v acc, <[k := v]> acc) target source.

(** The object literal
    [{ 'uploaded-at': .., 'file-size': .., 'upload-source': .., ...metadata }]:
    the three defaults are written first, then the caller's mapping is
    spread over them. *)
Definition defaultMetadata (uploadedAt : string) (fileBuffer : Buffer)
    (metadata : gmap string string) : gmap string string :=
  spread metadata
    (<["upload-source" := "web-portal"]>
      (<["file-size" := pretty (length fileBuffer)]>
        (<["uploaded-at" := uploadedAt]> ∅))).

Definition uploadFile (key : JsKey) (fileBuffer : option Buffer)
    (contentType : option string) (options : UploadOptions) : M W UploadResult :=
  try_catch
    (match fileBuffer with
     | Some buf =>
       if truthy key then
         let metadata := default ∅ (opt_metadata options) in
         let cacheControl :=
           default "public, max-age=31536000" (opt_cacheControl options) in
         let storageClass := default "STANDARD" (opt_storageClass options) in
         let serverSideEncryption :=
           default "AES256" (opt_serverSideEncryption options) in
         stamp ← nowISO;
         let command := PutObjectCommand
           {| put_Bucket := BUCKET_NAME;
              put_Key := key;
              put_Body := Some buf;
              put_ContentType := contentType;
              put_CacheControl := Some cacheControl;
              put_Metadata := Some (defaultMetadata stamp buf metadata);
              put_ServerSideEncryption := Some serverSideEncryption;
              put_StorageClass := Some storageClass |} in
         result ← r2Client_send command;
         uploadedAt ← nowISO;
         mret {| up_sdk := result;
                 up_fileSize := length buf;
                 up_key := key;
                 up_contentType := contentType;
                 up_uploadedAt := uploadedAt |}
       else throw (Error "Key and file buffer are required")
     | None => throw (Error "Key and file buffer are required")
     end)
    (λ error, throw (Error ("Upload failed: " +:+ message error))).

(** **** downloadFile *)

Record DownloadOptions := {
  opt_range : option string;
  opt_ifNoneMatch : option string;
  opt_ifModifiedSince : option string;
  opt_responseCacheControl : option string;
  opt_responseContentType : option string
}.

Record DownloadResult := {
  down_sdk : SdkOutput;
  down_key : JsKey;
  down_downloadedAt : string;
  down_downloadTime : Z
}.

(** [...(x && { Field: x })]: the field is present only for a truthy [x]. *)
Definition when_truthy (x : option string) : option string :=
  match x with
  | Some s => if truthy_string s then Some s else None
  | None => None
  end.

Definition downloadFile (key : JsKey) (options : DownloadOptions) : M W DownloadResult :=
  try_catch
    (if truthy key then
       let command := GetObjectCommand
         {| get_Bucket := BUCKET_NAME;
            get_Key := key;
            get_Range := when_truthy (opt_range options);
            get_IfNoneMatch := when_truthy (opt_ifNoneMatch options);
            get_IfModifiedSince := when_truthy (opt_ifModifiedSince options);
            get_ResponseCacheControl := when_truthy (opt_responseCacheControl options);
            get_ResponseContentType := when_truthy (opt_responseContentType options) |} in
       startTime ← now;
       result ← r2Client_send command;
       endTime ← now;
       downloadedAt ← nowISO;
       mret {| down_sdk := result;
               down_key := key;
               down_downloadedAt := downloadedAt;
               down_downloadTime := (endTime - startTime)%Z |}
     else throw (Error "Key is required"))
    (λ error,
       if String.eqb (name error) "NoSuchKey" then
         throw (Error ("File not found: " +:+ key_toString key))
       else if String.eqb (name error) "AccessDenied" then
         throw (Error ("Access denied for file: " +:+ key_toString key))
       else throw (Error ("Download failed: " +:+ message error))).

(** **** deleteFile *)

Record DeleteResult := {
  del_sdk : SdkOutput;
  del_key : JsKey;
  del_deletedAt : string
}.

Definition deleteFile (key : JsKey) : M W DeleteResult :=
  try_catch
    (if truthy key then
       result ← r2Client_send (DeleteObjectCommand BUCKET_NAME key);
       deletedAt ← nowISO;
       mret {| del_sdk := result; del_key := key; del_deletedAt := deletedAt |}
     else throw (Error "Key is required"))
    (λ error, throw (Error ("Delete failed: " +:+ message error))).

(** **** deleteFiles *)

Record BatchDeleteResult := {
  bd_results : list SdkOutput;
  bd_deletedCount : nat;
  bd_errors : list ObjectError;
  bd_deletedAt : string
}.

Definition maxBatchSize : nat := 1000.

(** [keys.slice(start, end)] for [start <= end]. *)
Definition slice {A} (l : list A) (start stop : nat) : list A :=
  take (stop - start) (drop start l).

(** The request built for one batch:
    [Objects: batch.map(key => ({ Key: key })), Quiet: false]. *)
Definition deleteObjects (batch : list JsKey) : Command :=
  DeleteObjectsCommand BUCKET_NAME batch false.

(** The loop [for (let i = 0; i < keys.length; i += maxBatchSize)], entered
    at index [i] with the outputs collected so far. *)
Equations? deleteLoop (keys : list JsKey) (i : nat) (results : list SdkOutput)
    (w : W) : Completion (list SdkOutput) * W by wf (length keys - i) lt :=
  deleteLoop keys i results w with decide (i < length keys) => {
    | left _ with r2Client_send (deleteObjects (slice keys i (i + maxBatchSize))) w => {
        | (Return result, w') :=
            deleteLoop keys (i + maxBatchSize) (results ++ [result]) w';
        | (Throw e, w') := (Throw e, w') };
    | right _ := (Return results, w) }.
Proof. unfold maxBatchSize. lia. Qed.

(** [result.Deleted?.length || 0]. *)
Definition deletedLength (result : SdkOutput) : nat :=
  match Deleted result with
  | Some l => length l
  | None => 0
  end.

(** [result.Errors || []]. *)
Definition errorsOf (result : SdkOutput) : list ObjectError :=
  default [] (Errors result).

(** [keys] is [None] when the argument is absent or is not an array. *)
Definition deleteFiles (keys : option (list JsKey)) : M W BatchDeleteResult :=
  try_catch
    (match keys with
     | Some ((_ :: _) as ks) =>
       results ← deleteLoop ks 0 [];
       deletedAt ← nowISO;
       mret {| bd_results := results;
               bd_deletedCount :=
                 foldl (λ acc result, acc + deletedLength result) 0 results;
               bd_errors :=
                 foldl (λ acc result, acc ++ errorsOf result) [] results;
               bd_deletedAt := deletedAt |}
     | Some [] | None => throw (Error "Keys array is required and must not be empty")
     end)
    (λ error, throw (Error ("Batch delete failed: " +:+ message error))).

(** **** getFileMetadata, fileExists, getFileSize *)

(** [md_sdk] holds the spread [...result]; it is absent from the object
    returned for a missing key. The fields [key], [exists], [queriedAt]
    are written after the spread. *)
Record MetadataResult := {
  md_sdk : option SdkOutput;
  md_key : JsKey;
  md_exists : bool;
  md_queriedAt : string
}.

Definition getFileMetadata (key : JsKey) : M W MetadataResult :=
  try_catch
    (if truthy key then
       result ← r2Client_send (HeadObjectCommand BUCKET_NAME key);
       queriedAt ← nowISO;
       mret {| md_sdk := Some result; md_key := key;
               md_exists := true; md_queriedAt := queriedAt |}
     else throw (Error "Key is required"))
    (λ error,
       if String.eqb (name error) "NotFound" || String.eqb (name error) "NoSuchKey" then
         queriedAt ← nowISO;
         mret {| md_sdk := None; md_key := key;
                 md_exists := false; md_queriedAt := queriedAt |}
       else throw (Error ("Get metadata failed: " +:+ message error))).

Definition fileExists (key : JsKey) : M W bool :=
  try_catch
    (metadata ← getFileMetadata key; mret (md_exists metadata))
    (λ error, mret false).

(** What [getFileSize] resolves to: [null], [undefined] or a number. *)
Inductive SizeValue :=
| SizeNull
| SizeUndefined
| SizeNumber (n : Z).

(** [metadata.ContentLength]. *)
Definition md_ContentLength (metadata : MetadataResult) : SizeValue :=
  match md_sdk metadata with
  | Some result =>
    match ContentLength result with
    | Some n => SizeNumber n
    | None => SizeUndefined
    end
  | None => SizeUndefined
  end.

Definition getFileSize (key : JsKey) : M W SizeValue :=
  try_catch
    (metadata ← getFileMetadata key;
     mret (if md_exists metadata then md_ContentLength metadata else SizeNull))
    (λ error, mret SizeNull).

(** **** generateSignedUrl *)

Record SignedUrlResult := {
  su_url : string;
  su_key : JsKey;
  su_operation : string;
  su_expiresIn : Z;
  su_expiresAt : string;
  su_generatedAt : string
}.

(** [new GetObjectCommand({ Bucket: BUCKET_NAME, Key: key })]. *)
Definition bareGetObject (key : JsKey) : Command :=
  GetObjectCommand
    {| get_Bucket := BUCKET_NAME; get_Key := key; get_Range := None;
       get_IfNoneMatch := None; get_IfModifiedSince := None;
       get_ResponseCacheControl := None; get_ResponseContentType := None |}.

(** [new PutObjectCommand({ Bucket: BUCKET_NAME, Key: key })]. *)
Definition barePutObject (key : JsKey) : Command :=
  PutObjectCommand
    {| put_Bucket := BUCKET_NAME; put_Key := key; put_Body := None;
       put_ContentType := None; put_CacheControl := None; put_Metadata := None;
       put_ServerSideEncryption := None; put_StorageClass := None |}.

(** The largest time value a [Date] can hold, in milliseconds. *)
Definition maxTimeValue : Z := 8640000000000000.

(** [new Date(ms).toISOString()] for a computed time value: outside the
    range of [Date] the date is invalid and [toISOString] throws. *)
Definition Date_toISOString (ms : Z) : M W string :=
  if decide (- maxTimeValue ≤ ms ≤ maxTimeValue)%Z
  then mret (toISOString ms)
  else throw (mkJsError "RangeError" "Invalid time value").

(** [operation] and [expiresIn] are [None] when the caller leaves them
    out: the defaults ['getObject'] and [3600] apply. *)
Definition generateSignedUrl (key : JsKey) (operation : option string)
    (expiresIn : option Z) : M W SignedUrlResult :=
  let operation := default "getObject" operation in
  let expiresIn := default 3600%Z expiresIn in
  try_catch
    (_ ← import_presigner;
     command ←
       (if String.eqb operation "getObject" then mret (bareGetObject key)
        else if String.eqb operation "putObject" then mret (barePutObject key)
        else throw (Error ("Unsupported operation: " +:+ operation)));
     signedUrl ← presign command expiresIn;
     t ← now;
     expiresAt ← Date_toISOString (t + expiresIn * 1000)%Z;
     generatedAt ← nowISO;
     mret {| su_url := signedUrl;
             su_key := key;
             su_operation := operation;
             su_expiresIn := expiresIn;
             su_expiresAt := expiresAt;
             su_generatedAt := generatedAt |})
    (λ error, throw (Error ("Generate signed URL failed: " +:+ message error))).

End Facade.

(** *** The batches of the specification, and a sequential sender *)

(** The keys cut into consecutive chunks of at most [n] keys, as the
    specification words it. *)
Equations? chunks {A} (n : nat) (l : list A) : list (list A) by wf (length l) lt :=
  chunks 0 _ := [];
  chunks (S m) [] := [];
  chunks (S m) (x :: l) := take (S m) (x :: l) :: chunks (S m) (drop m l).
Proof. rewrite length_drop. lia. Qed.

Section Sender.
Context {Env : Type} `{!Backend Env}.

(** One request after the other, stopping at the first that fails. *)
Fixpoint sendAll (cs : list Command) : M (World Env) (list SdkOutput) :=
  match cs with
  | [] => mret []
  | c :: cs' =>
    result ← r2Client_send c;
    results ← sendAll cs';
    mret (result :: results)
  end.

End Sender.

(** *** A scripted backend, for running the facade on concrete inputs *)

(** The service answers the requests from [replies], in order, and hangs
    up once the script is over; the clock advances by one on each reading. *)
Record Script := { replies : list (Completion SdkOutput); clock : Z }.

Definition noOutput : SdkOutput :=
  {| ContentLength := None; Deleted := None; Errors := None |}.

#[global] Instance scriptedBackend : Backend Script := {
  send _ s :=
    match replies s with
    | r :: rest => (r, {| replies := rest; clock := clock s |})
    | [] => (Throw (mkJsError "TimeoutError" "socket hang up"), s)
    end;
  importPresigner s := (Return (), s);
  getSignedUrl _ _ s := (Return "https://r2.example/signed", s);
  Date_now s := (clock s, {| replies := replies s; clock := (clock s + 1)%Z |});
  toISOString ms := pretty ms;
  BUCKET_NAME := "blog"
}.

Definition scripted (rs : list (Completion SdkOutput)) : World Script :=
  {| env := {| replies := rs; clock := 0 |}; calls := [] |}.

(** Outputs and inputs used in the examples. *)
Definition deletedReport (n : nat) : SdkOutput :=
  {| ContentLength := None;
     Deleted := Some (replicate n {| deleted_Key := "posts/cover.png" |});
     Errors := None |}.

Definition headReport (size : Z) : SdkOutput :=
  {| ContentLength := Some size; Deleted := None; Errors := None |}.

Definition keys2500 : list JsKey := replicate 2500 (KStr "posts/cover.png").

End Storage.

(** ** The dashboard notification helper *)

Module Dashboard.

(** The DOM is modelled as a store of string-valued properties:
    [innerHTML] reads back the markup that was assigned to it. *)

Definition nl : string :=
  String (Ascii.Ascii false true false true false false false false) EmptyString.

(** *** Notifications *)

(** A child of the body: an element created by [showNotification], or any
    other one. [innerHTML] is the markup that was assigned to it. *)
Record Element := {
  eid : nat;
  className : string;
  innerHTML : string;
  style_animation : option string
}.

(** The callbacks handed to [setTimeout]: the outer one starts the exit
    animation of the element, the inner one removes it. *)
Inductive Callback :=
| SlideOut (el : nat)
| Remove (el : nat).

Record Timer := { delay : Z; callback : Callback }.

(** The element a callback was created for. *)
Definition target (c : Callback) : nat :=
  match c with
  | SlideOut el | Remove el => el
  end.

(** [keyframes]: the [style#notification-keyframes] element is in the head.
    [bodyChildren]: the children of the body, in document order.
    [timers]: the pending timeouts. *)
Record Document := {
  keyframes : bool;
  bodyChildren : list Element;
  nextId : nat;
  timers : list Timer
}.

Definition emptyDocument : Document :=
  {| keyframes := false; bodyChildren := []; nextId := 0; timers := [] |}.

Definition initNotificationStyles (d : Document) : Document :=
  if keyframes d then d
  else {| keyframes := true; bodyChildren := bodyChildren d;
          nextId := nextId d; timers := timers d |}.

(** ASCII whitespace, which separates the names of a class attribute. *)
Definition isSpace (c : ascii) : bool :=
  Ascii.eqb c " "%char || Ascii.eqb c "009"%char || Ascii.eqb c "010"%char
  || Ascii.eqb c "012"%char || Ascii.eqb c "013"%char.

Fixpoint classTokens_from (current : string) (s : string) : list string :=
  match s with
  | EmptyString =>
    match current with
    | EmptyString => []
    | String _ _ => [current]
    end
  | String c rest =>
    if isSpace c then
      match current with
      | EmptyString => classTokens_from EmptyString rest
      | String _ _ => current :: classTokens_from EmptyString rest
      end
    else classTokens_from (current +:+ String c EmptyString) rest
  end.

(** The class names in a [className]. *)
Definition classTokens (s : string) : list string := classTokens_from EmptyString s.

(** The element matches the selector [.notification]. *)
Definition matchesNotification (e : Element) : bool :=
  bool_decide ("notification" ∈ classTokens (className e)).

(** The children of the body that match [.notification], in document
    order. *)
Definition notifications (d : Document) : list Element :=
  filter (λ e, matchesNotification e) (bodyChildren d).

(** What the browser computes and the helper only uses.
    [inherited_icon type]: for a [type] that is no key of [icons] itself,
    the text a template literal prints for [icons[type]] when [type] names
    a property that [icons] inherits from [Object.prototype] (a function,
    or the prototype itself), [None] when [icons[type]] is [undefined] or
    another falsy value.
    [matches_in html]: the number of elements matching [.notification] in
    the tree parsed from the markup [html]. *)
Class Engine := {
  inherited_icon : string → option string;
  matches_in : string → nat
}.

Section Notifications.
Context {engine : Engine}.


(** [icons[type] || icons.success]: the entry of [icons] for [type], else
    what [type] finds on the prototype of [icons], else the entry for
    success. *)
Definition getNotificationIcon (type : string) : string :=
  if String.eqb type "success" then "check-circle"
  else if String.eqb type "error" then "exclamation-triangle"
  else if String.eqb type "warning" then "exclamation-circle"
  else if String.eqb type "info" then "info-circle"
  else default "check-circle" (inherited_icon type).

(** The template literal assigned to [notification.innerHTML]. *)
Definition notificationHTML (message type : string) : string :=
  nl +:+ "            <div class=" +:+ dq +:+ "notification-content" +:+ dq +:+ ">" +:+
  nl +:+ "                <i class=" +:+ dq +:+ "fas fa-" +:+ getNotificationIcon type +:+
         " notification-icon" +:+ dq +:+ "></i>" +:+
  nl +:+ "                <span>" +:+ message +:+ "</span>" +:+
  nl +:+ "                <button class=" +:+ dq +:+ "notification-close" +:+ dq +:+
         " onclick=" +:+ dq +:+ "this.parentElement.parentElement.remove()" +:+ dq +:+
         ">&times;</button>" +:+
  nl +:+ "            </div>" +:+
  nl +:+ "        ".

(** [`notification ${type !== 'success' ? 'notification-' + type : ''}`]. *)
Definition notificationClass (type : string) : string :=
  "notification " +:+
  (if String.eqb type "success" then EmptyString else "notification-" +:+ type).

(** [document.querySelector('.notification')]: the first match in document
    order. A child that matches comes before the matches inside its own
    markup, so that the first match is the first child that matches on
    every page where no match stands inside a child that does not match
    itself, as on the pages that only the helper has changed. *)
Definition querySelector_notification (d : Document) : option Element :=
  head (notifications d).

(** [el.remove()]: the element leaves the document, with all it contains. *)
Definition detach (el : nat) (l : list Element) : list Element :=
  filter (λ e, eid e ≠ el) l.

(** [notification.parentElement] is truthy. *)
Definition attached (el : nat) (d : Document) : bool :=
  bool_decide (el ∈ eid <$> bodyChildren d).

(** [type] and [duration] are [None] when the caller leaves them out. *)
Definition showNotification (message : string) (type : option string)
    (duration : option Z) (d : Document) : Element * Document :=
  let type := default "success" type in
  let duration := default 5000%Z duration in
  let d := initNotificationStyles d in
  let remaining :=
    match querySelector_notification d with
    | Some existing => detach (eid existing) (bodyChildren d)
    | None => bodyChildren d
    end in
  let notification :=
    {| eid := nextId d;
       className := notificationClass type;
       innerHTML := notificationHTML message type;
       style_animation := None |} in
  (notification,
   {| keyframes := keyframes d;
      bodyChildren := remaining ++ [notification];
      nextId := S (nextId d);
      timers := timers d ++ [{| delay := duration; callback := SlideOut (eid notification) |}] |}).

Definition setAnimation (el : nat) (value : string) (l : list Element) : list Element :=
  (λ e, if decide (eid e = el)
        then {| eid := eid e; className := className e; innerHTML := innerHTML e;
                style_animation := Some value |}
        else e) <$> l.

(** Running a timeout callback. *)
Definition runCallback (c : Callback) (d : Document) : Document :=
  match c with
  | SlideOut el =>
    if attached el d then
      {| keyframes := keyframes d;
         bodyChildren :=
           setAnimation el "slideOutNotification 0.3s ease forwards" (bodyChildren d);
         nextId := nextId d;
         timers := timers d ++ [{| delay := 300; callback := Remove el |}] |}
    else d
  | Remove el =>
    if attached el d then
      {| keyframes := keyframes d; bodyChildren := detach el (bodyChildren d);
         nextId := nextId d; timers := timers d |}
    else d
  end.

(** What can happen to the page between two statements of a script: a call
    of [showNotification], a pending timeout firing (any of them: the model
    does not order them by delay), a click on the close button of a
    notification. *)
Inductive Event :=
| EvShow (message : string) (type : option string) (duration : option Z)
| EvTimeout (n : nat)
| EvClose (el : nat).

Definition step (d : Document) (ev : Event) : Document :=
  match ev with
  | EvShow message type duration => (showNotification message type duration d).2
  | EvTimeout n =>
    match timers d !! n with
    | Some t =>
      runCallback (callback t)
        {| keyframes := keyframes d; bodyChildren := bodyChildren d;
           nextId := nextId d; timers := delete n (timers d) |}
    | None => d
    end
  | EvClose el =>
    {| keyframes := keyframes d; bodyChildren := detach el (bodyChildren d);
       nextId := nextId d; timers := timers d |}
  end.

Definition run (evs : list Event) (d : Document) : Document := foldl step d evs.


End Notifications.

(** *** Loading state of a button *)

(** [textContent_of html]: the text content of an element whose markup is
    [html], as the browser computes it. *)
Class Dom := { textContent_of : string → string }.

Record Button := {
  btn_innerHTML : string;
  btn_disabled : bool;
  btn_classList : list string;
  (** [button.dataset.originalHTML], [button.dataset.originalText] *)
  btn_originalHTML : option string;
  btn_originalText : option string
}.

Definition classList_add (c : string) (l : list string) : list string :=
  if bool_decide (c ∈ l) then l else l ++ [c].

Definition classList_remove (c : string) (l : list string) : list string :=
  filter (λ x, x ≠ c) l.

Definition spinnerHTML : string :=
  "<i class=" +:+ dq +:+ "fas fa-spinner fa-spin" +:+ dq +:+ "></i>".

(** [!x] for an optional string. *)
Definition falsy (x : option string) : bool :=
  match x with
  | Some s => negb (truthy_string s)
  | None => true
  end.

(** The content [h] is what a deactivation will restore: it is stored on
    the button, or nothing is stored yet and it is the current content. *)
Definition restorable (h : string) (b : Button) : Prop :=
  (btn_originalHTML b = Some h)
  ∨ (falsy (btn_originalHTML b) = true ∧ btn_innerHTML b = h).

Section Loading.
Context `{!Dom} {engine : Engine}.

(** The body of [setLoading] after the guard [if (!button) return]. *)
Definition setLoading_element (button : Button) (isLoading : bool) : Button :=
  let originalHTML := or_else (btn_originalHTML button) (btn_innerHTML button) in
  let originalText :=
    or_else (btn_originalText button) (textContent_of (btn_innerHTML button)) in
  let dataset :=
    if falsy (btn_originalHTML button)
    then (Some originalHTML, Some originalText)
    else (btn_originalHTML button, btn_originalText button) in
  if isLoading then
    {| btn_innerHTML :=
         if includes (btn_innerHTML button) ("<i class=" +:+ dq +:+ "fas")
         then spinnerHTML
         else spinnerHTML +:+ " Processing...";
       btn_disabled := true;
       btn_classList := classList_add "btn-loading" (btn_classList button);
       btn_originalHTML := dataset.1;
       btn_originalText := dataset.2 |}
  else
    {| btn_innerHTML := originalHTML;
       btn_disabled := false;
       btn_classList := classList_remove "btn-loading" (btn_classList button);
       btn_originalHTML := dataset.1;
       btn_originalText := dataset.2 |}.

(** [button] is [None] for a [null] or absent target. *)
Definition setLoading (button : option Button) (isLoading : bool) : option Button :=
  match button with
  | None => None
  | Some b => Some (setLoading_element b isLoading)
  end.

(** [setLoading] applied for each flag of the list, in order. *)
Definition toggles (flags : list bool) (button : option Button) : option Button :=
  foldl setLoading button flags.

(** *** fetchWithFeedback *)

(** The envelope of the application endpoints:
    [{ success: boolean, message?: string, error?: string }]. *)
Record Envelope := {
  env_success : bool;
  env_message : option string;
  env_error : option string
}.

(** How [response.json()] settles; [JsonThrows] also stands for an
    exception raised while reading the parsed value. *)
Inductive JsonOutcome :=
| JsonParsed (data : Envelope)
| JsonThrows (e : JsError).

(** How [fetch(url, ...)] settles: a response with its [ok] flag and its
    body, or a rejection. *)
Inductive FetchOutcome :=
| Responded (ok : bool) (body : JsonOutcome)
| FetchRejected (e : JsError).

(** The page as [fetchWithFeedback] sees it: the document and the button it
    was given ([None] for [null]). *)
Record Page := { document : Document; button : option Button }.

Definition notify (message : string) (type : option string) : M Page unit :=
  λ p,
    (Return (),
     {| document := (showNotification message type None (document p)).2;
        button := button p |}).

(** A computation that leaves the button as it found it. *)
Definition keeps_button {A} (m : M Page A) : Prop :=
  ∀ p, button (m p).2 = button p.

(** [if (button) setLoading(button, isLoading)]. *)
Definition setButtonLoading (isLoading : bool) : M Page unit :=
  λ p,
    (Return (),
     {| document := document p; button := setLoading (button p) isLoading |}).

Definition fetchWithFeedback (outcome : FetchOutcome) (successMessage : string)
    : M Page Envelope :=
  _ ← setButtonLoading true;
  try_finally
    (try_catch
       (match outcome with
        | FetchRejected e => throw e
        | Responded ok (JsonThrows e) => throw e
        | Responded ok (JsonParsed data) =>
          if ok && env_success data then
            _ ← (if truthy_string successMessage
                 then notify (or_else (env_message data) successMessage) None
                 else mret ());
            mret data
          else
            _ ← notify
                  (or_else (env_error data)
                     (or_else (env_message data) "Operation failed"))
                  (Some "error");
            throw (Error (or_else (env_error data) "Operation failed"))
        end)
       (λ error,
          _ ← (if String.eqb (name error) "TypeError" && includes (message error) "fetch"
               then notify "Network error. Please check your connection and try again."
                      (Some "error")
               else if negb (includes (message error) "Operation failed")
               then notify "An unexpected error occurred. Please try again."
                      (Some "error")
               else mret ());
          throw error))
    (setButtonLoading false).

End Loading.

(** *** Values used in the examples *)

(** A text extraction good enough for markup without entities or comments:
    everything between [<] and [>] is dropped. *)
Fixpoint stripTags (inTag : bool) (html : string) : string :=
  match html with
  | EmptyString => EmptyString
  | String c rest =>
    if inTag then stripTags (negb (Ascii.eqb c ">"%char)) rest
    else if Ascii.eqb c "<"%char then stripTags true rest
    else String c (stripTags false rest)
  end.

Definition exampleDom : Dom := {| textContent_of := stripTags false |}.

(** What a V8 engine prints for the properties that an object literal
    inherits from [Object.prototype]. *)
Definition objectPrototypeText (property : string) : option string :=
  if String.eqb property "constructor" then Some "function Object() { [native code] }"
  else if String.eqb property "__proto__" then Some "[object Object]"
  else if bool_decide
            (property ∈ ["toString"; "toLocaleString"; "valueOf"; "hasOwnProperty";
                         "isPrototypeOf"; "propertyIsEnumerable";
                         "__defineGetter__"; "__defineSetter__";
                         "__lookupGetter__"; "__lookupSetter__"])
  then Some ("function " +:+ property +:+ "() { [native code] }")
  else None.

(** The number of places of [hay] where [needle] starts. *)
Fixpoint countOccurrences (hay needle : string) : nat :=
  (if String.prefix needle hay then 1 else 0)
  + match hay with
    | EmptyString => 0
    | String _ rest => countOccurrences rest needle
    end.

(** An engine good enough for the examples: an element of the markup
    matches when its class attribute is the one name [notification]. *)
Definition exampleEngine : Engine :=
  {| inherited_icon := objectPrototypeText;
     matches_in html :=
       countOccurrences html ("class=" +:+ dq +:+ "notification" +:+ dq) |}.


Definition saveButton : Button :=
  {| btn_innerHTML := "Save"; btn_disabled := false; btn_classList := ["btn"];
     btn_originalHTML := None; btn_originalText := None |}.

(** A button without content, as in [<button class="close"></button>]. *)
Definition emptyButton : Button :=
  {| btn_innerHTML := EmptyString; btn_disabled := false; btn_classList := ["close"];
     btn_originalHTML := None; btn_originalText := None |}.


End Dashboard.

(** ** Listing and health check of the storage facade *)

Module Listing.
Import Storage.

(** The input of [ListObjectsV2Command]; a field is [None] when the object
    literal of the source does not carry it. *)
Record ListObjectsV2Input := {
  list_Bucket : string;
  list_Prefix : option string;
  list_MaxKeys : Z;
  list_ContinuationToken : option string;
  list_Delimiter : option string;
  list_FetchOwner : option bool;
  list_StartAfter : option string
}.

(** The fields of the listing output that the facade reads. *)
Record ListOutput := {
  KeyCount : option Z;
  IsTruncated : option bool;
  NextContinuationToken : option string
}.

(** [r2Client.send(new ListObjectsV2Command(input))]. *)
Class ListingBackend (Env : Type) := {
  sendList : ListObjectsV2Input → Env → Completion ListOutput * Env
}.

Record ListWorld (Env : Type) := mkListWorld {
  lenv : Env;
  listed : list ListObjectsV2Input
}.
Arguments mkListWorld {Env} lenv listed.
Arguments lenv {Env} _.
Arguments listed {Env} _.

Section ListingFacade.
Context {Env : Type} `{!Backend Env} `{!ListingBackend Env}.

Local Abbreviation LW := (ListWorld Env).

Definition r2Client_sendList (input : ListObjectsV2Input) : M LW ListOutput :=
  λ w,
    let '(r, e') := sendList input (lenv w) in
    (r, {| lenv := e'; listed := listed w ++ [input] |}).

Definition clockNow : M LW Z :=
  λ w,
    let '(t, e') := Date_now (lenv w) in
    (Return t, {| lenv := e'; listed := listed w |}).

Definition clockISO : M LW string := t ← clockNow; mret (toISOString t).

(** **** checkR2Health *)

Record HealthResult := {
  h_status : string;
  h_responseTime : option Z;
  h_error : option string;
  h_bucket : string;
  h_region : option string;
  h_checkedAt : string
}.

(** [{ Bucket: BUCKET_NAME, MaxKeys: 1 }]. *)
Definition healthProbe : ListObjectsV2Input :=
  {| list_Bucket := BUCKET_NAME; list_Prefix := None; list_MaxKeys := 1;
     list_ContinuationToken := None; list_Delimiter := None;
     list_FetchOwner := None; list_StartAfter := None |}.

Definition checkR2Health : M LW HealthResult :=
  try_catch
    (startTime ← clockNow;
     result ← r2Client_sendList healthProbe;
     endTime ← clockNow;
     checkedAt ← clockISO;
     mret {| h_status := "healthy";
             h_responseTime := Some (endTime - startTime)%Z;
             h_error := None;
             h_bucket := BUCKET_NAME;
             h_region := Some "auto";
             h_checkedAt := checkedAt |})
    (λ error,
       checkedAt ← clockISO;
       mret {| h_status := "unhealthy";
               h_responseTime := None;
               h_error := Some (message error);
               h_bucket := BUCKET_NAME;
               h_region := None;
               h_checkedAt := checkedAt |}).

(** **** listfiles *)

Record ListOptions := {
  lo_maxKeys : option Z;
  lo_continuationToken : option string;
  lo_delimiter : option string;
  lo_fetchOwner : option bool;
  lo_startAfter : option string
}.

Record ListResult := {
  lr_sdk : ListOutput;
  lr_requestedAt : string;
  lr_totalFiles : Z;
  lr_hasMore : bool;
  lr_nextToken : option string
}.

(** [...(x && { Field: x })] for an optional string. *)
Definition string_when_truthy (x : option string) : option string :=
  match x with
  | Some s => if truthy_string s then Some s else None
  | None => None
  end.

(** [...(fetchOwner && { FetchOwner: fetchOwner })]. *)
Definition bool_when_truthy (x : option bool) : option bool :=
  match x with
  | Some true => Some true
  | Some false | None => None
  end.

(** [result.KeyCount || 0]. *)
Definition keyCount_or_zero (x : option Z) : Z :=
  match x with
  | Some n => if (n =? 0)%Z then 0%Z else n
  | None => 0%Z
  end.

(** [prefix] is [None] when the caller leaves it out: the default [''] applies. *)
Definition listfiles (prefix : option string) (options : ListOptions) : M LW ListResult :=
  let prefix := default EmptyString prefix in
  try_catch
    (let command :=
       {| list_Bucket := BUCKET_NAME;
          list_Prefix := Some prefix;
          list_MaxKeys := default 1000%Z (lo_maxKeys options);
          list_ContinuationToken := string_when_truthy (lo_continuationToken options);
          list_Delimiter := string_when_truthy (lo_delimiter options);
          list_FetchOwner := bool_when_truthy (lo_fetchOwner options);
          list_StartAfter := string_when_truthy (lo_startAfter options) |} in
     result ← r2Client_sendList command;
     requestedAt ← clockISO;
     mret {| lr_sdk := result;
             lr_requestedAt := requestedAt;
             lr_totalFiles := keyCount_or_zero (KeyCount result);
             lr_hasMore := default false (IsTruncated result);
             lr_nextToken := string_when_truthy (NextContinuationToken result) |})
    (λ error, throw (Error ("List files failed: " +:+ message error))).

End ListingFacade.

(** The scripted service of the examples answers listings from a script of
    its own. *)
Record ListScript := { lreplies : list (Completion ListOutput); lclock : Z }.

#[global] Instance listScriptBackend : Backend ListScript := {
  send _ s := (Throw (mkJsError "TimeoutError" "socket hang up"), s);
  importPresigner s := (Return (), s);
  getSignedUrl _ _ s := (Return "https://r2.example/signed", s);
  Date_now s := (lclock s, {| lreplies := lreplies s; lclock := (lclock s + 5)%Z |});
  toISOString ms := pretty ms;
  BUCKET_NAME := "blog"
}.

#[global] Instance listScriptListing : ListingBackend ListScript := {
  sendList _ s :=
    match lreplies s with
    | r :: rest => (r, {| lreplies := rest; lclock := lclock s |})
    | [] => (Throw (mkJsError "TimeoutError" "socket hang up"), s)
    end
}.

Definition listScripted (rs : list (Completion ListOutput)) : ListWorld ListScript :=
  {| lenv := {| lreplies := rs; lclock := 0 |}; listed := [] |}.

End Listing.

(** ** The request built by [fetchWithFeedback] *)

Module Request.

(** The value of a property of the [options] object or of the object given
    to [fetch]: a string ([method], [body], ...) or a mapping of headers. *)
Inductive PropValue :=
| StrProp (s : string)
| HeadersProp (h : gmap string string).

(** The [options] argument: its [headers] property when it has one, and
    its other properties. *)
Record FetchOptions := {
  fo_headers : option (gmap string string);
  fo_others : gmap string string
}.

(** The own properties of [options]. *)
Definition optionsObject (options : FetchOptions) : gmap string PropValue :=
  let others : gmap string PropValue := StrProp <$> fo_others options in
  match fo_headers options with
  | Some own => <["headers" := HeadersProp own]> others
  | None => delete "headers" others
  end.

(** The spread [{ ...target, ...source }] on objects. *)
Definition spreadProps (source target : gmap string PropValue) : gmap string PropValue :=
  map_fold (λ k v acc, <[k := v]> acc) target source.

(** The second argument of [fetch]:
    [{ headers: { 'Content-Type': 'application/json', ...options.headers },
       ...options }]. *)
Definition requestInit (options : FetchOptions) : gmap string PropValue :=
  spreadProps (optionsObject options)
    (<["headers" :=
         HeadersProp
           (Storage.spread (default ∅ (fo_headers options))
              (<["Content-Type" := "application/json"]> ∅))]> ∅).

End Request.

(** ** More values for the examples *)

Module Fixtures.
Import Storage.

(** A process whose signer fails, and whose signer module does not even
    load when [import_ok] is [false]. *)
Record Faulty := { import_ok : bool }.

#[global] Instance faultyBackend : Backend Faulty := {
  send _ s := (Throw (mkJsError "TimeoutError" "socket hang up"), s);
  importPresigner s :=
    if import_ok s then (Return (), s)
    else (Throw (mkJsError "Error" "Cannot find package"), s);
  getSignedUrl _ _ s := (Throw (mkJsError "CredentialsProviderError" "no credentials"), s);
  Date_now s := (0%Z, s);
  toISOString ms := pretty ms;
  BUCKET_NAME := "blog"
}.

Definition faulty (ok : bool) : World Faulty :=
  {| env := {| import_ok := ok |}; calls := [] |}.

(** An answer to a batch deletion that reports one object as not deleted. *)
Definition partialReport : SdkOutput :=
  {| ContentLength := None;
     Deleted := Some [{| deleted_Key := "posts/a.png" |}];
     Errors := Some [{| err_Key := "posts/b.png"; err_Code := "AccessDenied";
                        err_Message := "Access Denied" |}] |}.

Definition noDownloadOptions : DownloadOptions :=
  {| opt_range := None; opt_ifNoneMatch := None; opt_ifModifiedSince := None;
     opt_responseCacheControl := None; opt_responseContentType := None |}.

Definition noListOptions : Listing.ListOptions :=
  {| Listing.lo_maxKeys := None; Listing.lo_continuationToken := None;
     Listing.lo_delimiter := None; Listing.lo_fetchOwner := None;
     Listing.lo_startAfter := None |}.

End Fixtures.

(** * Properties of the storage facade *)

Module StorageSpec.
Import Storage.

Section Properties.
Context {Env : Type} `{!Backend Env}.

Implicit Types (key : JsKey) (w : World Env).

Lemma empty_or_absent_falsy key : empty_or_absent key ↔ truthy key = false.
Proof.
  split.
  - by intros [-> | [-> | ->]].
  - destruct key as [| | [|c s]]; unfold empty_or_absent; naive_solver.
Qed.

Lemma uploadFile_rejects_falsy key buf ct opts w :
  truthy key = false →
  uploadFile key buf ct opts w =
    (Throw (Error "Upload failed: Key and file buffer are required"), w).
Proof. intros Hk. unfold uploadFile, try_catch. destruct buf; by rewrite ?Hk. Qed.

Lemma downloadFile_rejects_falsy key opts w :
  truthy key = false →
  downloadFile key opts w = (Throw (Error "Download failed: Key is required"), w).
Proof. intros Hk. unfold downloadFile, try_catch. by rewrite Hk. Qed.

Lemma deleteFile_rejects_falsy key w :
  truthy key = false →
  deleteFile key w = (Throw (Error "Delete failed: Key is required"), w).
Proof. intros Hk. unfold deleteFile, try_catch. by rewrite Hk. Qed.

Lemma getFileMetadata_rejects_falsy key w :
  truthy key = false →
  getFileMetadata key w = (Throw (Error "Get metadata failed: Key is required"), w).
Proof. intros Hk. unfold getFileMetadata, try_catch. by rewrite Hk. Qed.

(** C3: for an empty or absent key, upload, download, delete and
    getMetadata reject with the validation failure of the operation, and the
    world is left as it was: no request was sent to the storage service. *)
Theorem C3_validation_before_remote key buf ct uopts dopts w :
  empty_or_absent key →
  uploadFile key buf ct uopts w =
    (Throw (Error "Upload failed: Key and file buffer are required"), w)
  ∧ downloadFile key dopts w =
    (Throw (Error "Download failed: Key is required"), w)
  ∧ deleteFile key w = (Throw (Error "Delete failed: Key is required"), w)
  ∧ getFileMetadata key w =
    (Throw (Error "Get metadata failed: Key is required"), w).
Proof.
  intros Hk%empty_or_absent_falsy.
  auto using uploadFile_rejects_falsy, downloadFile_rejects_falsy,
    deleteFile_rejects_falsy, getFileMetadata_rejects_falsy.
Qed.

(** Unfolding the monad down to the oracles of the environment. *)
Ltac run_facade :=
  unfold try_catch, nowISO, now, r2Client_send, import_presigner, presign,
    throw, mbind, M_bind, mret, M_ret; simpl.

Lemma getFileMetadata_found key w result env' :
  truthy key = true →
  send (HeadObjectCommand BUCKET_NAME key) (env w) = (Return result, env') →
  ∃ md w',
    getFileMetadata key w = (Return md, w')
    ∧ md_sdk md = Some result ∧ md_key md = key ∧ md_exists md = true
    ∧ calls w' = calls w ++ [Sent (HeadObjectCommand BUCKET_NAME key)].
Proof.
  intros Hk Hs. unfold getFileMetadata. run_facade. rewrite Hk, Hs. simpl.
  destruct (Date_now env') as [t e'']. eauto 10.
Qed.

Lemma getFileMetadata_missing key w e env' :
  truthy key = true →
  send (HeadObjectCommand BUCKET_NAME key) (env w) = (Throw e, env') →
  name e = "NotFound" ∨ name e = "NoSuchKey" →
  ∃ md w',
    getFileMetadata key w = (Return md, w')
    ∧ md_sdk md = None ∧ md_key md = key ∧ md_exists md = false.
Proof.
  intros Hk Hs Hn. unfold getFileMetadata. run_facade. rewrite Hk, Hs. simpl.
  assert (String.eqb (name e) "NotFound" || String.eqb (name e) "NoSuchKey" = true)
    as ->.
  { destruct Hn as [-> | ->]; reflexivity. }
  simpl. destruct (Date_now env') as [t e'']. eauto 10.
Qed.

Lemma fileExists_of_metadata key w :
  fileExists key w =
    match getFileMetadata key w with
    | (Return md, w') => (Return (md_exists md), w')
    | (Throw _, w') => (Return false, w')
    end.
Proof.
  unfold fileExists. run_facade.
  by destruct (getFileMetadata key w) as [[md | e] w'].
Qed.

Lemma getFileSize_of_metadata key w :
  getFileSize key w =
    match getFileMetadata key w with
    | (Return md, w') =>
      (Return (if md_exists md then md_ContentLength md else SizeNull), w')
    | (Throw _, w') => (Return SizeNull, w')
    end.
Proof.
  unfold getFileSize. run_facade.
  by destruct (getFileMetadata key w) as [[md | e] w'].
Qed.

(** C4: [exists] and [getSize] always resolve: whatever [getMetadata] does,
    [exists] resolves to its [exists] flag and [getSize] to the content
    length of an existing object, and when [getMetadata] fails they resolve
    to [false] and [null]. For a key the service reports as missing,
    [getMetadata] returns [exists: false] and does not raise; for a key the
    service answers for, [exists] is [true] and [getSize] is the content
    length of the answer. *)
Theorem C4_exists_and_size_never_raise key w :
  (∃ b w', fileExists key w = (Return b, w'))
  ∧ (∃ v w', getFileSize key w = (Return v, w'))
  ∧ (∀ e w', getFileMetadata key w = (Throw e, w') →
       fileExists key w = (Return false, w')
       ∧ getFileSize key w = (Return SizeNull, w'))
  ∧ (∀ e env',
       truthy key = true →
       send (HeadObjectCommand BUCKET_NAME key) (env w) = (Throw e, env') →
       name e = "NotFound" ∨ name e = "NoSuchKey" →
       ∃ md w',
         getFileMetadata key w = (Return md, w')
         ∧ md_exists md = false ∧ md_key md = key
         ∧ fileExists key w = (Return false, w')
         ∧ getFileSize key w = (Return SizeNull, w'))
  ∧ (∀ result env',
       truthy key = true →
       send (HeadObjectCommand BUCKET_NAME key) (env w) = (Return result, env') →
       ∃ md w',
         getFileMetadata key w = (Return md, w')
         ∧ md_exists md = true ∧ md_key md = key
         ∧ fileExists key w = (Return true, w')
         ∧ getFileSize key w =
             (Return (match ContentLength result with
                      | Some n => SizeNumber n
                      | None => SizeUndefined
                      end), w')).
Proof.
  rewrite fileExists_of_metadata, getFileSize_of_metadata.
  split_and!.
  - destruct (getFileMetadata key w) as [[md | e] w']; eauto.
  - destruct (getFileMetadata key w) as [[md | e] w']; eauto.
  - by intros e w' ->.
  - intros e env' Hk Hs Hn.
    destruct (getFileMetadata_missing key w e env' Hk Hs Hn)
      as (md & w' & -> & Hsdk & Hkey & Hex).
    exists md, w'. by rewrite Hex.
  - intros result env' Hk Hs.
    destruct (getFileMetadata_found key w result env' Hk Hs)
      as (md & w' & -> & Hsdk & Hkey & Hex & _).
    exists md, w'. unfold md_ContentLength. by rewrite Hex, Hsdk.
Qed.

Lemma deleteFiles_rejects_nothing w :
  deleteFiles None w =
    (Throw (Error "Batch delete failed: Keys array is required and must not be empty"), w)
  ∧ deleteFiles (Some []) w =
    (Throw (Error "Batch delete failed: Keys array is required and must not be empty"), w).
Proof. split; reflexivity. Qed.

(** C2 (amended): for an empty or absent key, upload, download, delete and
    getMetadata fail with their validation failure, and batchDelete fails
    with its own when the list of keys is absent or empty, all of them
    before any remote call; exists and getSize do not fail: they resolve to
    [false] and [null], also before any remote call. *)
Theorem C2_key_validation key buf ct uopts dopts w :
  empty_or_absent key →
  uploadFile key buf ct uopts w =
    (Throw (Error "Upload failed: Key and file buffer are required"), w)
  ∧ downloadFile key dopts w =
    (Throw (Error "Download failed: Key is required"), w)
  ∧ deleteFile key w = (Throw (Error "Delete failed: Key is required"), w)
  ∧ getFileMetadata key w =
    (Throw (Error "Get metadata failed: Key is required"), w)
  ∧ deleteFiles None w =
    (Throw (Error "Batch delete failed: Keys array is required and must not be empty"), w)
  ∧ deleteFiles (Some []) w =
    (Throw (Error "Batch delete failed: Keys array is required and must not be empty"), w)
  ∧ fileExists key w = (Return false, w)
  ∧ getFileSize key w = (Return SizeNull, w).
Proof.
  intros Hk%empty_or_absent_falsy.
  rewrite fileExists_of_metadata, getFileSize_of_metadata.
  rewrite (getFileMetadata_rejects_falsy key w Hk).
  split_and!;
    auto using uploadFile_rejects_falsy, downloadFile_rejects_falsy,
      deleteFile_rejects_falsy.
Qed.

(** The command [generateSignedUrl] builds for a supported operation. *)
Lemma generateSignedUrl_signed key operation expiresIn w command env' url env'' :
  importPresigner (env w) = (Return (), env') →
  (default "getObject" operation = "getObject" ∧ command = bareGetObject key)
  ∨ (default "getObject" operation = "putObject" ∧ command = barePutObject key) →
  getSignedUrl command (default 3600%Z expiresIn) env' = (Return url, env'') →
  let lifetime := default 3600%Z expiresIn in
  let expiry := ((Date_now env'').1 + lifetime * 1000)%Z in
  generateSignedUrl key operation expiresIn w =
    if decide (- maxTimeValue ≤ expiry ≤ maxTimeValue)%Z
    then
      (Return {| su_url := url;
                 su_key := key;
                 su_operation := default "getObject" operation;
                 su_expiresIn := lifetime;
                 su_expiresAt := toISOString expiry;
                 su_generatedAt := toISOString (Date_now (Date_now env'').2).1 |},
       {| env := (Date_now (Date_now env'').2).2;
          calls := calls w ++ [Signed command lifetime] |})
    else
      (Throw (Error "Generate signed URL failed: Invalid time value"),
       {| env := (Date_now env'').2; calls := calls w ++ [Signed command lifetime] |}).
Proof.
  intros Hi Hop Hs lifetime expiry. subst lifetime expiry.
  unfold generateSignedUrl, Date_toISOString. run_facade. rewrite Hi. simpl.
  destruct Hop as [[-> ->] | [-> ->]]; simpl; rewrite Hs; simpl;
    destruct (Date_now env'') as [t1 e1]; simpl;
    (case_decide; simpl; [by destruct (Date_now e1) | done]).
Qed.

Lemma generateSignedUrl_unsupported key operation expiresIn w :
  default "getObject" operation ≠ "getObject" →
  default "getObject" operation ≠ "putObject" →
  calls (generateSignedUrl key operation expiresIn w).2 = calls w
  ∧ (∃ e, (generateSignedUrl key operation expiresIn w).1 = Throw e)
  ∧ (∀ env', importPresigner (env w) = (Return (), env') →
       generateSignedUrl key operation expiresIn w =
         (Throw (Error ("Generate signed URL failed: Unsupported operation: "
                        +:+ default "getObject" operation)),
          {| env := env'; calls := calls w |})).
Proof.
  intros H1%String.eqb_neq H2%String.eqb_neq.
  unfold generateSignedUrl. run_facade.
  destruct (importPresigner (env w)) as [[[] | e] env1]; simpl;
    rewrite ?H1, ?H2; simpl.
  - split_and!; [done | eauto |]. by intros env' [= ->].
  - split_and!; [done | eauto |]. by intros env' [=].
Qed.

(** C5 (amended): the operations [generateSignedUrl] supports are
    ['getObject'] (read, the default) and ['putObject'] (write): with either,
    once the signer has produced the URL, the call returns it when the
    expiry instant (the clock reading plus the lifetime in milliseconds) is
    a time value a [Date] can hold, and fails with [Invalid time value]
    when it is not. Any other operation value, ["write"] among them, makes
    the call fail without reaching the signer, with the failure
    [Unsupported operation] once the signer module is loaded. *)
Theorem C5_signed_url_operations key operation expiresIn w :
  (∀ command env' url env'',
     importPresigner (env w) = (Return (), env') →
     (default "getObject" operation = "getObject" ∧ command = bareGetObject key)
     ∨ (default "getObject" operation = "putObject" ∧ command = barePutObject key) →
     getSignedUrl command (default 3600%Z expiresIn) env' = (Return url, env'') →
     let expiry := ((Date_now env'').1 + default 3600%Z expiresIn * 1000)%Z in
     ((- maxTimeValue ≤ expiry ≤ maxTimeValue)%Z →
      ∃ res w',
        generateSignedUrl key operation expiresIn w = (Return res, w')
        ∧ su_url res = url
        ∧ calls w' = calls w ++ [Signed command (default 3600%Z expiresIn)])
     ∧ (¬ (- maxTimeValue ≤ expiry ≤ maxTimeValue)%Z →
        generateSignedUrl key operation expiresIn w
          = (Throw (Error "Generate signed URL failed: Invalid time value"),
             {| env := (Date_now env'').2;
                calls := calls w ++ [Signed command (default 3600%Z expiresIn)] |})))
  ∧ (default "getObject" operation ≠ "getObject" →
     default "getObject" operation ≠ "putObject" →
     calls (generateSignedUrl key operation expiresIn w).2 = calls w
     ∧ (∃ e, (generateSignedUrl key operation expiresIn w).1 = Throw e)
     ∧ (∀ env', importPresigner (env w) = (Return (), env') →
          generateSignedUrl key operation expiresIn w =
            (Throw (Error ("Generate signed URL failed: Unsupported operation: "
                           +:+ default "getObject" operation)),
             {| env := env'; calls := calls w |}))).
Proof.
  split.
  - intros command env' url env'' Hi Hop Hs expiry.
    rewrite (generateSignedUrl_signed key operation expiresIn w _ _ _ _ Hi Hop Hs).
    fold expiry. split; intros Hrange.
    + rewrite decide_True by done. eauto.
    + by rewrite decide_False.
  - apply generateSignedUrl_unsupported.
Qed.

Lemma spread_union (source target : gmap string string) :
  spread source target = source ∪ target.
Proof.
  unfold spread.
  apply (map_fold_weak_ind (λ r m, r = m ∪ target)).
  - by rewrite (left_id_L ∅ (∪)).
  - intros k v m r Hk ->. by rewrite insert_union_l.
Qed.

(** C10: the upload request carries a metadata mapping that always has the
    three entries [uploaded-at], [file-size] and [upload-source]; every entry
    of the caller's mapping is in it with the caller's value, and an entry
    the caller does not supply has the generated value: the time of the
    upload, the length of the payload, ["web-portal"]. *)
Theorem C10_upload_metadata key buf ct opts w :
  truthy key = true →
  let caller := default ∅ (opt_metadata opts) in
  ∃ input md,
    calls (uploadFile key (Some buf) ct opts w).2
      = calls w ++ [Sent (PutObjectCommand input)]
    ∧ put_Metadata input = Some md
    ∧ is_Some (md !! "uploaded-at")
    ∧ is_Some (md !! "file-size")
    ∧ is_Some (md !! "upload-source")
    ∧ (∀ k v, caller !! k = Some v → md !! k = Some v)
    ∧ (caller !! "uploaded-at" = None →
       md !! "uploaded-at" = Some (toISOString (Date_now (env w)).1))
    ∧ (caller !! "file-size" = None →
       md !! "file-size" = Some (pretty (length buf)))
    ∧ (caller !! "upload-source" = None →
       md !! "upload-source" = Some "web-portal")
    ∧ (∀ k, md !! k ≠ None →
       caller !! k ≠ None ∨ k = "uploaded-at" ∨ k = "file-size" ∨ k = "upload-source").
Proof.
  intros Hk caller. unfold uploadFile. run_facade. rewrite Hk.
  destruct (Date_now (env w)) as [t e1]. simpl.
  eexists _, (defaultMetadata (toISOString t) buf caller).
  split.
  { destruct (send _ e1) as [[r | e] e2]; simpl; [| reflexivity].
    destruct (Date_now e2); reflexivity. }
  split; [reflexivity |].
  unfold defaultMetadata. rewrite spread_union.
  split_and!.
  - rewrite lookup_union. destruct (caller !! "uploaded-at"); by simplify_map_eq.
  - rewrite lookup_union. destruct (caller !! "file-size"); by simplify_map_eq.
  - rewrite lookup_union. destruct (caller !! "upload-source"); by simplify_map_eq.
  - intros k v Hc. by apply lookup_union_Some_l.
  - intros Hc. rewrite lookup_union, Hc. by simplify_map_eq.
  - intros Hc. rewrite lookup_union, Hc. by simplify_map_eq.
  - intros Hc. rewrite lookup_union, Hc. by simplify_map_eq.
  - intros k Hm. destruct (caller !! k) eqn:Hc; [by left | right].
    rewrite lookup_union, Hc, left_id in Hm by apply _.
    destruct (decide (k = "upload-source")) as [-> | ?]; [by auto |].
    destruct (decide (k = "file-size")) as [-> | ?]; [by auto |].
    destruct (decide (k = "uploaded-at")) as [-> | ?]; [by auto |].
    by simplify_map_eq.
Qed.

(** *** Batch deletion *)

Lemma chunks_nil {A} n : chunks n (@nil A) = [].
Proof. destruct n; by simp chunks. Qed.

Lemma chunks_step {A} n (l : list A) :
  0 < n → l ≠ [] → chunks n l = take n l :: chunks n (drop n l).
Proof. destruct n, l; intros; try done; [lia | by simp chunks]. Qed.

Lemma chunks_concat {A} n (l : list A) : 0 < n → concat (chunks n l) = l.
Proof.
  intros Hn. funelim (chunks n l); [lia | done |].
  simpl. rewrite H by lia. simpl. f_equal. apply take_drop.
Qed.

Lemma chunks_bounded {A} n (l : list A) :
  Forall (λ batch, 0 < length batch ≤ n) (chunks n l).
Proof.
  funelim (chunks n l); [done | done |].
  constructor; [| done]. simpl. rewrite length_take. lia.
Qed.

Lemma chunks_2500 {A} (l : list A) :
  length l = 2500 → length <$> chunks 1000 l = [1000; 1000; 500].
Proof.
  intros Hl.
  assert (∀ k : list A, 0 < length k → k ≠ []) as Hne by (by intros [|]; simpl; [lia |]).
  rewrite (chunks_step 1000 l) by (try apply Hne; lia).
  rewrite (chunks_step 1000 (drop 1000 l))
    by (try apply Hne; rewrite ?length_drop; lia).
  rewrite (chunks_step 1000 (drop 1000 (drop 1000 l)))
    by (try apply Hne; rewrite ?length_drop; lia).
  assert (drop 1000 (drop 1000 (drop 1000 l)) = []) as ->.
  { apply drop_ge. rewrite !length_drop. lia. }
  rewrite chunks_nil. simpl. rewrite !length_take, !length_drop. do 3 f_equal; lia.
Qed.

Lemma deleteLoop_sendAll keys i acc w :
  deleteLoop keys i acc w =
    match sendAll (deleteObjects <$> chunks maxBatchSize (drop i keys)) w with
    | (Return results, w') => (Return (acc ++ results), w')
    | (Throw e, w') => (Throw e, w')
    end.
Proof.
  assert (0 < maxBatchSize) as Hpos by (unfold maxBatchSize; lia).
  assert (∀ j, j < length keys → drop j keys ≠ []) as Hne.
  { intros j Hj Hd. apply (f_equal length) in Hd.
    rewrite length_drop in Hd. simpl in Hd. lia. }
  funelim (deleteLoop keys i acc w).
  - (* past the last key *)
    rewrite drop_ge by lia. rewrite chunks_nil. simpl.
    unfold mret, M_ret. by rewrite (right_id_L [] (++)).
  - (* the batch is sent and answered *)
    match goal with IH : _ → _ → deleteLoop _ _ _ _ = _ |- _ => rewrite IH by done end.
    rewrite (chunks_step maxBatchSize (drop i keys)) by auto.
    rewrite drop_drop. simpl. unfold mbind at 1, M_bind at 1.
    unfold slice in Heq.
    replace (i + maxBatchSize - i) with maxBatchSize in Heq by lia.
    rewrite Heq. unfold mbind, M_bind.
    destruct (sendAll _ w') as [[rs | e] w'']; simpl; [| done].
    by rewrite <- (assoc_L (++)).
  - (* the batch is sent and the request fails *)
    rewrite (chunks_step maxBatchSize (drop i keys)) by auto.
    simpl. unfold mbind at 1, M_bind at 1.
    unfold slice in Heq.
    replace (i + maxBatchSize - i) with maxBatchSize in Heq by lia.
    by rewrite Heq.
Qed.

Lemma sendAll_calls (cs : list Command) w :
  (∃ n, calls (sendAll cs w).2 = calls w ++ take n (Sent <$> cs))
  ∧ (∀ results w', sendAll cs w = (Return results, w') →
       calls w' = calls w ++ (Sent <$> cs) ∧ length results = length cs).
Proof.
  revert w. induction cs as [| c cs IH]; intros w; simpl.
  - split.
    + exists 0. simpl. by rewrite app_nil_r.
    + intros results w' [= <- <-]. simpl. by rewrite app_nil_r.
  - unfold mbind at 1 3, M_bind at 1 3, r2Client_send.
    destruct (send c (env w)) as [[r | e] e1]; simpl.
    + set (w1 := {| env := e1; calls := calls w ++ [Sent c] |}).
      destruct (IH w1) as [[n Hn] Hall]. unfold mbind, M_bind.
      destruct (sendAll cs w1) as [[rs | e] w2] eqn:Hs; simpl in *.
      * split.
        -- exists (S n). rewrite Hn. simpl. by rewrite <- app_assoc.
        -- intros results w' [= <- <-].
           destruct (Hall rs w2 eq_refl) as [Hc Hl].
           rewrite Hc. simpl. rewrite Hl. by rewrite <- app_assoc.
      * split; [| done].
        exists (S n). rewrite Hn. simpl. by rewrite <- app_assoc.
    + split; [| done]. by exists 1.
Qed.

Lemma foldl_count {A} (f : A → nat) (l : list A) (a : nat) :
  foldl (λ acc x, acc + f x) a l = a + sum_list_with f l.
Proof.
  revert a. induction l as [| x l IH]; intros a; simpl; [lia |].
  rewrite IH. lia.
Qed.

Lemma foldl_concat {A B} (f : A → list B) (l : list A) (a : list B) :
  foldl (λ acc x, acc ++ f x) a l = a ++ concat (f <$> l).
Proof.
  revert a. induction l as [| x l IH]; intros a; simpl.
  - by rewrite (right_id_L [] (++)).
  - by rewrite IH, <- (assoc_L (++)).
Qed.

(** [deleteFiles] on a list that is not empty, in terms of the batches. *)
Lemma deleteFiles_batches keys w :
  keys ≠ [] →
  deleteFiles (Some keys) w =
    match sendAll (deleteObjects <$> chunks maxBatchSize keys) w with
    | (Return results, w') =>
      (Return {| bd_results := results;
                 bd_deletedCount := sum_list_with deletedLength results;
                 bd_errors := concat (errorsOf <$> results);
                 bd_deletedAt := toISOString (Date_now (env w')).1 |},
       {| env := (Date_now (env w')).2; calls := calls w' |})
    | (Throw e, w') => (Throw (Error ("Batch delete failed: " +:+ message e)), w')
    end.
Proof.
  intros Hne. destruct keys as [| k keys]; [done |].
  unfold deleteFiles, try_catch, mbind at 1, M_bind at 1.
  rewrite deleteLoop_sendAll. rewrite drop_0.
  destruct (sendAll _ w) as [[rs | e] w']; simpl; [| done].
  unfold nowISO, now, mbind, M_bind, mret, M_ret.
  destruct (Date_now (env w')) as [t e']. simpl.
  by rewrite foldl_count, foldl_concat.
Qed.

Lemma submittedObjects_requests bucket (batches : list (list JsKey)) :
  submittedObjects
    <$> ((λ batch, Sent (DeleteObjectsCommand bucket batch false)) <$> batches)
  = batches.
Proof.
  induction batches as [| b bs IH]; [done |].
  rewrite !fmap_cons, IH. done.
Qed.

(** C1: the keys are cut into consecutive batches of at most 1000 keys
    (2500 keys give batches of 1000, 1000 and 500); [deleteFiles] sends one
    [DeleteObjects] request per batch, in order, whose [Objects] are the
    keys of the batch, and nothing else, so no request it sends names more
    than 1000 objects; when every request is answered, it returns, all the
    batches have been sent, and [deletedCount] is the sum over the answers
    of the number of objects each reports as deleted. *)
Theorem C1_batch_delete_chunks (keys : list JsKey) w :
  let batches := chunks maxBatchSize keys in
  let requests :=
    (λ batch, Sent (DeleteObjectsCommand BUCKET_NAME batch false)) <$> batches in
  let sent := drop (length (calls w)) (calls (deleteFiles (Some keys) w).2) in
  concat batches = keys
  ∧ Forall (λ batch, 0 < length batch ≤ 1000) batches
  ∧ (length keys = 2500 → length <$> batches = [1000; 1000; 500])
  ∧ (∃ n, calls (deleteFiles (Some keys) w).2 = calls w ++ take n requests
          ∧ submittedObjects <$> sent = take n batches)
  ∧ (∀ call, call ∈ sent →
       ∃ Objects, call = Sent (DeleteObjectsCommand BUCKET_NAME Objects false)
                  ∧ 0 < length Objects ≤ 1000)
  ∧ Forall (λ call, length (submittedObjects call) ≤ 1000) sent
  ∧ (∀ results w', keys ≠ [] →
       sendAll ((λ batch, DeleteObjectsCommand BUCKET_NAME batch false) <$> batches) w
         = (Return results, w') →
       ∃ res w'',
         deleteFiles (Some keys) w = (Return res, w'')
         ∧ calls w'' = calls w ++ requests
         ∧ bd_results res = results
         ∧ length results = length batches
         ∧ bd_deletedCount res = sum_list_with deletedLength results)
  ∧ (∀ res w'', deleteFiles (Some keys) w = (Return res, w'') →
       calls w'' = calls w ++ requests
       ∧ submittedObjects <$> sent = batches
       ∧ concat (submittedObjects <$> sent) = keys
       ∧ (length keys = 2500 →
          (λ call, length (submittedObjects call)) <$> sent = [1000; 1000; 500])
       ∧ length (bd_results res) = length batches
       ∧ bd_deletedCount res = sum_list_with deletedLength (bd_results res)).
Proof.
  intros batches requests sent.
  assert (requests = Sent <$> (deleteObjects <$> batches)) as Hreq.
  { unfold requests, deleteObjects. by rewrite <- list_fmap_compose. }
  assert (submittedObjects <$> requests = batches) as Hobjects.
  { apply submittedObjects_requests. }
  assert (concat batches = keys) as Hconcat.
  { apply chunks_concat. unfold maxBatchSize. lia. }
  assert (∃ n, calls (deleteFiles (Some keys) w).2 = calls w ++ take n requests)
    as Hprefix.
  { destruct (decide (keys = [])) as [-> | Hne].
    - exists 0. simpl. by rewrite take_0, app_nil_r.
    - rewrite deleteFiles_batches by done. fold batches.
      destruct (sendAll_calls (deleteObjects <$> batches) w) as [[n Hn] _].
      exists n. rewrite Hreq, <- Hn.
      by destruct (sendAll _ w) as [[rs | e] w']. }
  assert (∃ n, sent = take n requests) as [n Hsent].
  { destruct Hprefix as [n Hn]. exists n. unfold sent.
    by rewrite Hn, drop_app_length. }
  assert (∀ call, call ∈ sent →
            ∃ Objects, call = Sent (DeleteObjectsCommand BUCKET_NAME Objects false)
                       ∧ 0 < length Objects ≤ 1000) as Hbound.
  { intros call Hin. rewrite Hsent in Hin.
    unfold requests in Hin. rewrite <- fmap_take in Hin.
    apply list_elem_of_fmap in Hin as [batch [-> Hb]].
    apply elem_of_take in Hb as (i & Hb & _).
    exists batch. split; [done |].
    pose proof (chunks_bounded maxBatchSize keys) as Hall.
    rewrite Forall_lookup in Hall. apply Hall in Hb.
    unfold maxBatchSize in Hb. lia. }
  assert (∀ w'', calls w'' = calls w ++ requests →
            calls (deleteFiles (Some keys) w).2 = calls w'' →
            submittedObjects <$> sent = batches) as Hall_sent.
  { intros w'' Hc Heq. unfold sent. by rewrite Heq, Hc, drop_app_length. }
  split_and!.
  - done.
  - apply chunks_bounded.
  - apply chunks_2500.
  - exists n. split.
    + destruct Hprefix as [m Hm]. unfold sent in Hsent.
      rewrite Hm, drop_app_length in Hsent. by rewrite Hm, Hsent.
    + by rewrite Hsent, fmap_take, Hobjects.
  - done.
  - apply Forall_forall. intros call Hin.
    destruct (Hbound call Hin) as (Objects & -> & Hlen). simpl. lia.
  - intros results w' Hne Hs. rewrite deleteFiles_batches by done.
    fold batches.
    change (sendAll (deleteObjects <$> batches) w = (Return results, w')) in Hs.
    rewrite Hs.
    destruct (sendAll_calls (deleteObjects <$> batches) w) as [_ Hall].
    destruct (Hall _ _ Hs) as [Hc Hl].
    eexists _, _. split; [reflexivity |]. simpl.
    rewrite Hreq, Hc, Hl, !length_fmap. done.
  - intros res w'' Hd.
    destruct (decide (keys = [])) as [-> | Hne]; [done |].
    assert (calls (deleteFiles (Some keys) w).2 = calls w'') as Hfinal
      by (by rewrite Hd).
    rewrite deleteFiles_batches in Hd by done. fold batches in Hd.
    destruct (sendAll_calls (deleteObjects <$> batches) w) as [_ Hall].
    destruct (sendAll _ w) as [[rs | e] w']; [| done].
    destruct (Hall _ _ eq_refl) as [Hc Hl].
    injection Hd as <- <-. simpl in *.
    assert (calls w' = calls w ++ requests) as Hc' by (by rewrite Hreq).
    assert (submittedObjects <$> sent = batches) as Hs.
    { apply (Hall_sent w'); [done |]. by rewrite Hfinal. }
    split_and!.
    + done.
    + done.
    + by rewrite Hs.
    + intros H2500. rewrite (list_fmap_compose submittedObjects length), Hs.
      by apply chunks_2500.
    + rewrite Hl, !length_fmap. done.
    + done.
Qed.

End Properties.

(** *** The facade run against the scripted backend *)

Lemma C3_validation_before_remote_witness :
  uploadFile (KStr EmptyString) (Some []) None no_options (scripted [])
    = (Throw (Error "Upload failed: Key and file buffer are required"), scripted [])
  ∧ downloadFile (KStr EmptyString)
      {| opt_range := None; opt_ifNoneMatch := None; opt_ifModifiedSince := None;
         opt_responseCacheControl := None; opt_responseContentType := None |}
      (scripted [])
    = (Throw (Error "Download failed: Key is required"), scripted [])
  ∧ deleteFile (KStr EmptyString) (scripted [])
    = (Throw (Error "Delete failed: Key is required"), scripted [])
  ∧ getFileMetadata (KStr EmptyString) (scripted [])
    = (Throw (Error "Get metadata failed: Key is required"), scripted []).
Proof.
  apply (C3_validation_before_remote (KStr EmptyString)).
  right. right. reflexivity.
Defined.

Lemma C2_key_validation_witness :
  fileExists KUndefined (scripted [Return (headReport 7)])
    = (Return false, scripted [Return (headReport 7)])
  ∧ getFileSize KUndefined (scripted [Return (headReport 7)])
    = (Return SizeNull, scripted [Return (headReport 7)]).
Proof.
  pose proof (C2_key_validation KUndefined None None no_options
    {| opt_range := None; opt_ifNoneMatch := None; opt_ifModifiedSince := None;
       opt_responseCacheControl := None; opt_responseContentType := None |}
    (scripted [Return (headReport 7)])) as H.
  destruct H as (_ & _ & _ & _ & _ & _ & Hexists & Hsize).
  - left. reflexivity.
  - split; assumption.
Defined.

(** C2, as stated, fails: with an empty key [exists] and [getSize] resolve
    instead of failing, [generateSignedUrl] hands the empty key to the
    signer, and [batchDelete] sends a request that names the empty key. *)
Lemma C2_counterexample :
  fileExists (KStr EmptyString) (scripted []) = (Return false, scripted [])
  ∧ getFileSize (KStr EmptyString) (scripted []) = (Return SizeNull, scripted [])
  ∧ calls (generateSignedUrl (KStr EmptyString) None None (scripted [])).2
    = [Signed (bareGetObject (KStr EmptyString)) 3600]
  ∧ (∃ res, (generateSignedUrl (KStr EmptyString) None None (scripted [])).1
            = Return res)
  ∧ calls (deleteFiles (Some [KStr EmptyString]) (scripted [Return (deletedReport 1)])).2
    = [Sent (deleteObjects [KStr EmptyString])].
Proof.
  split_and!; try reflexivity.
  eexists. vm_compute. reflexivity.
Qed.

Lemma C4_exists_and_size_never_raise_witness :
  fileExists (KStr "posts/cover.png") (scripted [Throw (mkJsError "NotFound" "Not Found")])
    = (Return false, {| env := {| replies := []; clock := 1 |};
                        calls := [Sent (HeadObjectCommand "blog" (KStr "posts/cover.png"))] |})
  ∧ getFileSize (KStr "posts/cover.png") (scripted [Return (headReport 2048)])
    = (Return (SizeNumber 2048),
       {| env := {| replies := []; clock := 1 |};
          calls := [Sent (HeadObjectCommand "blog" (KStr "posts/cover.png"))] |}).
Proof.
  split.
  - destruct (C4_exists_and_size_never_raise (KStr "posts/cover.png")
      (scripted [Throw (mkJsError "NotFound" "Not Found")]))
      as (_ & _ & _ & Hmissing & _).
    destruct (Hmissing (mkJsError "NotFound" "Not Found") {| replies := []; clock := 0 |})
      as (md & w' & Hmd & _ & _ & Hexists & _);
      [reflexivity | reflexivity | left; reflexivity |].
    vm_compute in Hmd. injection Hmd as _ <-. exact Hexists.
  - destruct (C4_exists_and_size_never_raise (KStr "posts/cover.png")
      (scripted [Return (headReport 2048)]))
      as (_ & _ & _ & _ & Hfound).
    destruct (Hfound (headReport 2048) {| replies := []; clock := 0 |})
      as (md & w' & Hmd & _ & _ & _ & Hsize);
      [reflexivity | reflexivity |].
    vm_compute in Hmd. injection Hmd as _ <-. exact Hsize.
Defined.

(** C5, as stated, fails: the operation value ["write"] is not one the
    code supports. *)
Lemma C5_counterexample :
  generateSignedUrl (KStr "posts/cover.png") (Some "write") None (scripted [])
  = (Throw (Error "Generate signed URL failed: Unsupported operation: write"),
     scripted []).
Proof. reflexivity. Qed.

Lemma C5_signed_url_operations_witness :
  (∃ res w',
     generateSignedUrl (KStr "posts/cover.png") (Some "putObject") (Some 60%Z) (scripted [])
       = (Return res, w')
     ∧ su_url res = "https://r2.example/signed"
     ∧ calls w' = [Signed (barePutObject (KStr "posts/cover.png")) 60])
  ∧ generateSignedUrl (KStr "posts/cover.png") None (Some 8640000000001%Z) (scripted [])
    = (Throw (Error "Generate signed URL failed: Invalid time value"),
       {| env := {| replies := []; clock := 1 |};
          calls := [Signed (bareGetObject (KStr "posts/cover.png")) 8640000000001] |})
  ∧ generateSignedUrl (KStr "posts/cover.png") (Some "delete") None (scripted [])
    = (Throw (Error "Generate signed URL failed: Unsupported operation: delete"),
       scripted []).
Proof.
  split_and!.
  - destruct (C5_signed_url_operations (KStr "posts/cover.png") (Some "putObject")
      (Some 60%Z) (scripted [])) as [Hsigns _].
    destruct (Hsigns (barePutObject (KStr "posts/cover.png"))
                {| replies := []; clock := 0 |} "https://r2.example/signed"
                {| replies := []; clock := 0 |}) as [Hvalid _];
      [reflexivity | right; split; reflexivity | reflexivity |].
    apply Hvalid. vm_compute. split; discriminate.
  - destruct (C5_signed_url_operations (KStr "posts/cover.png") None
      (Some 8640000000001%Z) (scripted [])) as [Hsigns _].
    destruct (Hsigns (bareGetObject (KStr "posts/cover.png"))
                {| replies := []; clock := 0 |} "https://r2.example/signed"
                {| replies := []; clock := 0 |}) as [_ Hinvalid];
      [reflexivity | left; split; reflexivity | reflexivity |].
    apply Hinvalid. vm_compute. intros [_ Hle]. by apply Hle.
  - destruct (C5_signed_url_operations (KStr "posts/cover.png") (Some "delete")
      None (scripted [])) as [_ Hunsupported].
    destruct Hunsupported as (_ & _ & Hfails); [discriminate | discriminate |].
    apply (Hfails {| replies := []; clock := 0 |}). reflexivity.
Defined.

Lemma C10_upload_metadata_witness :
  ∃ input md,
    calls (uploadFile (KStr "posts/cover.png") (Some [Byte.x89; Byte.x50]) (Some "image/png")
             {| opt_metadata := Some {[ "upload-source" := "cli"; "author" := "mbk" ]};
                opt_cacheControl := None; opt_storageClass := None;
                opt_serverSideEncryption := None |}
             (scripted [Return noOutput])).2
      = [Sent (PutObjectCommand input)]
    ∧ put_Metadata input = Some md
    ∧ md !! "upload-source" = Some "cli"
    ∧ md !! "author" = Some "mbk"
    ∧ md !! "file-size" = Some "2"
    ∧ md !! "uploaded-at" = Some "0".
Proof.
  destruct (C10_upload_metadata (KStr "posts/cover.png") [Byte.x89; Byte.x50]
    (Some "image/png")
    {| opt_metadata := Some {[ "upload-source" := "cli"; "author" := "mbk" ]};
       opt_cacheControl := None; opt_storageClass := None;
       opt_serverSideEncryption := None |}
    (scripted [Return noOutput]) eq_refl)
    as (input & md & Hcalls & Hmd & _ & _ & _ & Hcaller & Hat & Hsize & _).
  exists input, md. split_and!.
  - exact Hcalls.
  - exact Hmd.
  - apply Hcaller. reflexivity.
  - apply Hcaller. reflexivity.
  - apply Hsize. reflexivity.
  - apply Hat. reflexivity.
Defined.

Lemma C1_batch_delete_chunks_witness :
  ∃ res w',
    deleteFiles (Some keys2500)
      (scripted [Return (deletedReport 1000); Return (deletedReport 998);
                 Return (deletedReport 500)])
      = (Return res, w')
    ∧ (λ call, length (submittedObjects call)) <$> calls w' = [1000; 1000; 500]
    ∧ concat (submittedObjects <$> calls w') = keys2500
    ∧ length (bd_results res) = 3
    ∧ bd_deletedCount res = 2498.
Proof.
  set (w := scripted [Return (deletedReport 1000); Return (deletedReport 998);
                      Return (deletedReport 500)]).
  destruct (C1_batch_delete_chunks keys2500 w)
    as (_ & _ & _ & _ & _ & _ & Hanswered & Hreturned).
  destruct (Hanswered
      [deletedReport 1000; deletedReport 998; deletedReport 500]
      (sendAll ((λ batch, DeleteObjectsCommand BUCKET_NAME batch false)
                  <$> chunks maxBatchSize keys2500) w).2)
    as (res & w' & Hrun & _ & Hresults & _ & Hcount).
  - discriminate.
  - vm_compute. reflexivity.
  - destruct (Hreturned res w' Hrun) as (_ & _ & Hkeys & Hsizes & _ & _).
    rewrite Hrun in Hkeys, Hsizes. simpl in Hkeys, Hsizes.
    exists res, w'. split_and!.
    + exact Hrun.
    + apply Hsizes. vm_compute. reflexivity.
    + exact Hkeys.
    + rewrite Hresults. reflexivity.
    + rewrite Hcount. vm_compute. reflexivity.
Defined.

End StorageSpec.

(** * Properties of the dashboard helper *)

Module DashboardSpec.
Import Dashboard.

(** *** Strings *)

Lemma prefix_append (m rest : string) : String.prefix m (m +:+ rest) = true.
Proof.
  induction m as [| c m IH]; simpl; [by destruct rest |].
  destruct (Ascii.ascii_dec c c); [exact IH | done].
Qed.



Section NotificationInvariant.
Context {engine : Engine}.


(** *** The selector and the children of the body *)

Lemma notificationClass_matches type : "notification" ∈ classTokens (notificationClass type).
Proof. unfold notificationClass, classTokens. simpl. apply list_elem_of_here. Qed.

Lemma created_matches message type duration d :
  matchesNotification (showNotification message type duration d).1.
Proof. apply bool_decide_pack. simpl. apply notificationClass_matches. Qed.

Lemma filter_detach (P : Element → Prop) `{!∀ e, Decision (P e)} el (l : list Element) :
  filter P (detach el l) = detach el (filter P l).
Proof.
  unfold detach. induction l as [| e l IH]; [done |].
  rewrite (filter_cons P e l), (filter_cons (λ e, eid e ≠ el) e l).
  repeat case_decide.
  - rewrite (filter_cons_True P); [| assumption].
    rewrite (filter_cons_True (λ e, eid e ≠ el)); [| assumption]. by rewrite IH.
  - rewrite (filter_cons_False P); [| assumption]. exact IH.
  - rewrite (filter_cons_False (λ e, eid e ≠ el)); [| by intros Hne]. exact IH.
  - exact IH.
Qed.

Lemma setAnimation_matches el value (e : Element) :
  matchesNotification
    (if decide (eid e = el)
     then {| eid := eid e; className := className e; innerHTML := innerHTML e;
             style_animation := Some value |}
     else e)
  = matchesNotification e.
Proof. by case_decide. Qed.

Lemma filter_setAnimation el value (l : list Element) :
  filter (λ e, matchesNotification e) (setAnimation el value l)
  = setAnimation el value (filter (λ e, matchesNotification e) l).
Proof.
  unfold setAnimation. induction l as [| e l IH]; [done |].
  rewrite fmap_cons, !filter_cons, setAnimation_matches.
  case_decide; [| done]. by rewrite fmap_cons, IH.
Qed.

Lemma notifications_all d :
  Forall (λ e, matchesNotification e) (bodyChildren d) → notifications d = bodyChildren d.
Proof.
  unfold notifications. induction 1 as [| e l He Hl IH]; [done |].
  by rewrite filter_cons_True, IH by done.
Qed.

Lemma initNotificationStyles_children d :
  bodyChildren (initNotificationStyles d) = bodyChildren d
  ∧ notifications (initNotificationStyles d) = notifications d.
Proof. unfold initNotificationStyles. by destruct (keyframes d). Qed.

Lemma showNotification_children message type duration d :
  bodyChildren (showNotification message type duration d).2
    = match head (notifications d) with
      | Some existing => detach (eid existing) (bodyChildren d)
      | None => bodyChildren d
      end ++ [(showNotification message type duration d).1].
Proof.
  unfold showNotification, querySelector_notification. simpl.
  by destruct (initNotificationStyles_children d) as [-> ->].
Qed.

(** *** At most one notification *)

Lemma detach_length el (l : list Element) : length (detach el l) ≤ length l.
Proof. apply length_filter. Qed.

Lemma showNotification_replaces message type duration d :
  length (notifications d) ≤ 1 →
  notifications (showNotification message type duration d).2
    = [(showNotification message type duration d).1].
Proof.
  intros Hlen. unfold notifications at 1.
  rewrite showNotification_children, filter_app.
  rewrite (filter_cons_True _ (showNotification message type duration d).1)
    by apply created_matches.
  rewrite filter_nil.
  assert (filter (λ e, matchesNotification e)
            match head (notifications d) with
            | Some existing => detach (eid existing) (bodyChildren d)
            | None => bodyChildren d
            end = []) as ->; [| done].
  destruct (notifications d) as [| existing [| ? ?]] eqn:Hn;
    [done | | simpl in Hlen; lia].
  cbn [head]. rewrite filter_detach. fold (notifications d). rewrite Hn.
  unfold detach. by rewrite filter_cons_False by auto.
Qed.

Lemma showNotification_fresh message type duration d :
  eid (showNotification message type duration d).1 = nextId d
  ∧ nextId (showNotification message type duration d).2 = S (nextId d).
Proof.
  unfold showNotification, initNotificationStyles. simpl.
  by destruct (keyframes d).
Qed.

Lemma runCallback_notifications c d :
  length (notifications (runCallback c d)) ≤ length (notifications d).
Proof.
  destruct c as [el | el]; simpl; destruct (attached el d); try lia;
    unfold notifications; cbn [bodyChildren].
  - rewrite filter_setAnimation. unfold setAnimation. by rewrite length_fmap.
  - rewrite filter_detach. apply detach_length.
Qed.

Lemma step_at_most_one d ev :
  length (notifications d) ≤ 1 → length (notifications (step d ev)) ≤ 1.
Proof.
  intros Hlen. destruct ev as [message type duration | n | el]; unfold step.
  - by rewrite showNotification_replaces.
  - destruct (timers d !! n) as [t |]; [| done].
    etrans; [apply runCallback_notifications | done].
  - unfold notifications. cbn [bodyChildren]. rewrite filter_detach.
    etrans; [apply detach_length | done].
Qed.

Lemma run_at_most_one evs d :
  length (notifications d) ≤ 1 → length (notifications (run evs d)) ≤ 1.
Proof.
  revert d. induction evs as [| ev evs IH]; intros d Hlen; simpl; [done |].
  apply IH. by apply step_at_most_one.
Qed.

(** On a page that only this helper changes, every child matches the
    selector. *)
Lemma step_children_match d ev :
  Forall (λ e, matchesNotification e) (bodyChildren d) →
  Forall (λ e, matchesNotification e) (bodyChildren (step d ev)).
Proof.
  intros Hall.
  assert (∀ el, Forall (λ e, matchesNotification e) (detach el (bodyChildren d)))
    as Hdetach.
  { intros el. rewrite Forall_forall in Hall. apply Forall_forall.
    intros e [_ He]%list_elem_of_filter. auto. }
  destruct ev as [message type duration | n | el]; unfold step.
  - rewrite showNotification_children. apply Forall_app. split.
    + by destruct (head (notifications d)).
    + apply Forall_singleton, created_matches.
  - destruct (timers d !! n) as [t |]; [| done].
    destruct (callback t) as [el | el]; simpl;
      match goal with |- context [attached ?x ?y] => destruct (attached x y) end;
      simpl; try done.
    unfold setAnimation. apply Forall_fmap. eapply Forall_impl; [done |].
    intros e He. simpl. by rewrite setAnimation_matches.
  - simpl. apply Hdetach.
Qed.

Lemma run_children_match evs d :
  Forall (λ e, matchesNotification e) (bodyChildren d) →
  Forall (λ e, matchesNotification e) (bodyChildren (run evs d)).
Proof.
  revert d. induction evs as [| ev evs IH]; intros d Hall; simpl; [done |].
  by apply IH, step_children_match.
Qed.





End NotificationInvariant.

(** *** The loading state *)

Section LoadingState.
Context `{!Dom} {engine : Engine}.

(** C9: with a [null] or absent target, [setLoading] does nothing, for an
    activation as for a deactivation, once or repeatedly, and the page is
    left as it was. *)
Theorem C9_setLoading_without_target (isLoading : bool) (flags : list bool)
    (d : Document) :
  setLoading None isLoading = None
  ∧ toggles flags None = None
  ∧ setButtonLoading isLoading {| document := d; button := None |}
    = (Return (), {| document := d; button := None |}).
Proof.
  split_and!; [done | | done].
  induction flags as [| f flags IH]; [done | exact IH].
Qed.

Lemma setLoading_element_restorable h b isLoading :
  truthy_string h = true →
  restorable h b →
  btn_originalHTML (setLoading_element b isLoading) = Some h
  ∧ (isLoading = false → btn_innerHTML (setLoading_element b isLoading) = h).
Proof.
  intros Hh [Hs | [Hf <-]]; unfold setLoading_element.
  - rewrite Hs. simpl. rewrite Hh. simpl. by destruct isLoading.
  - rewrite Hf.
    assert (or_else (btn_originalHTML b) (btn_innerHTML b) = btn_innerHTML b) as ->.
    { unfold or_else. destruct (btn_originalHTML b) as [s |]; [| done].
      simpl in Hf. by destruct (truthy_string s). }
    by destruct isLoading.
Qed.

Lemma toggles_restorable h b flags :
  truthy_string h = true →
  restorable h b →
  ∃ b', toggles flags (Some b) = Some b' ∧ restorable h b'.
Proof.
  intros Hh. revert b. induction flags as [| f flags IH]; intros b Hb; simpl.
  - eauto.
  - apply IH. left. by apply setLoading_element_restorable.
Qed.

Lemma toggles_app flags flags' (button : option Button) :
  toggles (flags ++ flags') button = toggles flags' (toggles flags button).
Proof. apply foldl_app. Qed.

(** What [setLoading] leaves on a button without content: the first call
    stores the empty string, which the second call takes for nothing
    stored, so that the busy indicator is captured as the original. *)
Lemma setLoading_empty_content b :
  falsy (btn_originalHTML b) = true →
  btn_innerHTML b = EmptyString →
  ∃ b',
    toggles [true; false] (Some b) = Some b'
    ∧ btn_innerHTML b' = spinnerHTML +:+ " Processing..."
    ∧ btn_originalHTML b' = Some (spinnerHTML +:+ " Processing...").
Proof.
  intros Hf Hc. eexists. split; [reflexivity |].
  unfold setLoading_element. rewrite Hc, Hf.
  assert (or_else (btn_originalHTML b) EmptyString = EmptyString) as ->.
  { unfold or_else. destruct (btn_originalHTML b) as [s |]; [| done].
    simpl in Hf. by destruct (truthy_string s). }
  done.
Qed.

Lemma setLoading_restores h b flags :
  truthy_string h = true →
  restorable h b →
  ∃ b',
    toggles (flags ++ [false]) (Some b) = Some b'
    ∧ btn_innerHTML b' = h
    ∧ btn_disabled b' = false
    ∧ "btn-loading" ∉ btn_classList b'.
Proof.
  intros Hh Hb.
  destruct (toggles_restorable h b flags Hh Hb) as (b1 & Hrun & Hb1).
  rewrite toggles_app, Hrun. eexists. split; [reflexivity |].
  destruct (setLoading_element_restorable h b1 false Hh Hb1) as [_ Hhtml].
  split_and!.
  - by apply Hhtml.
  - done.
  - unfold setLoading_element, classList_remove. simpl.
    rewrite list_elem_of_filter. by intros [? _].
Qed.

(** C7: on a button with content, whose original is not stored yet, any
    number of toggles followed by a deactivation restores the content the
    button had before the first of them, and the button is interactive
    again. On a button without content it does not: an activation followed
    by a deactivation leaves the busy indicator as the content. *)
Theorem C7_setLoading_restores (b : Button) (flags : list bool) :
  (falsy (btn_originalHTML b) = true →
   truthy_string (btn_innerHTML b) = true →
   ∃ b',
     toggles (flags ++ [false]) (Some b) = Some b'
     ∧ btn_innerHTML b' = btn_innerHTML b
     ∧ btn_disabled b' = false)
  ∧ (falsy (btn_originalHTML b) = true →
     btn_innerHTML b = EmptyString →
     ∃ b',
       toggles [true; false] (Some b) = Some b'
       ∧ btn_innerHTML b' = spinnerHTML +:+ " Processing..."
       ∧ btn_innerHTML b' ≠ btn_innerHTML b).
Proof.
  split.
  - intros Hf Hc.
    destruct (setLoading_restores (btn_innerHTML b) b flags Hc)
      as (b' & ? & ? & ? & _); [by right | eauto].
  - intros Hf Hc.
    destruct (setLoading_empty_content b Hf Hc) as (b' & ? & Hb' & _).
    exists b'. split_and!; [done | done |]. by rewrite Hb', Hc.
Qed.

(** *** fetchWithFeedback *)

Lemma notify_keeps_button message type : keeps_button (notify message type).
Proof. done. Qed.

Lemma mret_keeps_button {A} (a : A) : keeps_button (mret a).
Proof. done. Qed.

Lemma throw_keeps_button {A} (e : JsError) : keeps_button (throw (A := A) e).
Proof. done. Qed.

Lemma bind_keeps_button {A B} (m : M Page A) (f : A → M Page B) :
  keeps_button m → (∀ a, keeps_button (f a)) → keeps_button (m ≫= f).
Proof.
  intros Hm Hf p. unfold mbind, M_bind. specialize (Hm p).
  destruct (m p) as [[a | e] p']; simpl in *; [| done].
  by rewrite Hf.
Qed.

Lemma try_catch_keeps_button {A} (body : M Page A) (handler : JsError → M Page A) :
  keeps_button body → (∀ e, keeps_button (handler e)) →
  keeps_button (try_catch body handler).
Proof.
  intros Hm Hf p. unfold try_catch. specialize (Hm p).
  destruct (body p) as [[a | e] p']; simpl in *; [done |].
  by rewrite Hf.
Qed.

Lemma if_keeps_button {A} (c : bool) (m1 m2 : M Page A) :
  keeps_button m1 → keeps_button m2 → keeps_button (if c then m1 else m2).
Proof. by destruct c. Qed.

Create HintDb button.
#[local] Hint Resolve notify_keeps_button mret_keeps_button throw_keeps_button
  bind_keeps_button try_catch_keeps_button if_keeps_button : button.





End LoadingState.

(** *** The helper run on concrete pages *)

#[local] Existing Instance exampleEngine.

(** A type that names a property inherited from [Object.prototype] puts the
    text of that property into the class of the icon. *)
Lemma getNotificationIcon_inherited :
  getNotificationIcon "toString" = "function toString() { [native code] }"
  ∧ getNotificationIcon "progress" = "check-circle"
  ∧ getNotificationIcon "warning" = "exclamation-circle".
Proof. by vm_compute. Qed.



Lemma C7_setLoading_restores_witness :
  (∃ b',
     toggles (H := exampleDom) ([true; true; true] ++ [false]) (Some saveButton) = Some b'
     ∧ btn_innerHTML b' = "Save"
     ∧ btn_disabled b' = false)
  ∧ (∃ b',
       toggles (H := exampleDom) [true; false] (Some emptyButton) = Some b'
       ∧ btn_innerHTML b' = spinnerHTML +:+ " Processing..."
       ∧ btn_innerHTML b' ≠ EmptyString).
Proof.
  split.
  - destruct (C7_setLoading_restores (H := exampleDom) saveButton [true; true; true])
      as [Hrestore _]. apply Hrestore; reflexivity.
  - destruct (C7_setLoading_restores (H := exampleDom) emptyButton [])
      as [_ Hstuck]. apply Hstuck; reflexivity.
Defined.


End DashboardSpec.

(** * Further properties of the storage facade *)

Module FacadeSpec.
Import Storage.

Ltac run_monad :=
  unfold try_catch, nowISO, now, r2Client_send, import_presigner, presign,
    throw, mbind, M_bind, mret, M_ret; simpl.

Section Outcomes.
Context {Env : Type} `{!Backend Env}.

Implicit Types (key : JsKey) (w : World Env).

(** The upload request for a payload [buf], stamped at [uploadedAt]. *)
Lemma uploadFile_sends key buf ct opts w :
  truthy key = true →
  let stamp := Date_now (env w) in
  let command := PutObjectCommand
    {| put_Bucket := BUCKET_NAME;
       put_Key := key;
       put_Body := Some buf;
       put_ContentType := ct;
       put_CacheControl :=
         Some (default "public, max-age=31536000" (opt_cacheControl opts));
       put_Metadata :=
         Some (defaultMetadata (toISOString stamp.1) buf
                 (default ∅ (opt_metadata opts)));
       put_ServerSideEncryption :=
         Some (default "AES256" (opt_serverSideEncryption opts));
       put_StorageClass := Some (default "STANDARD" (opt_storageClass opts)) |} in
  uploadFile key (Some buf) ct opts w =
    match send command stamp.2 with
    | (Return result, env') =>
      (Return {| up_sdk := result; up_fileSize := length buf; up_key := key;
                 up_contentType := ct;
                 up_uploadedAt := toISOString (Date_now env').1 |},
       {| env := (Date_now env').2; calls := calls w ++ [Sent command] |})
    | (Throw e, env') =>
      (Throw (Error ("Upload failed: " +:+ message e)),
       {| env := env'; calls := calls w ++ [Sent command] |})
    end.
Proof.
  intros Hk stamp command. unfold uploadFile. run_monad. rewrite Hk.
  subst stamp command. destruct (Date_now (env w)) as [t e1]. simpl.
  destruct (send _ e1) as [[r | e] e2]; simpl; [| done].
  by destruct (Date_now e2).
Qed.

(** X1: an upload with a key and a payload sends exactly one request. It
    carries the payload, the content type and, for the options the caller
    leaves out, a cache lifetime of one year, the storage class [STANDARD]
    and the encryption [AES256]. When the service answers, the result
    reports the length of the payload as the file size; when the request
    fails, the call fails with the cause under the prefix [Upload failed]. *)
Theorem uploadFile_outcome key buf ct opts w :
  truthy key = true →
  ∃ input,
    calls (uploadFile key (Some buf) ct opts w).2
      = calls w ++ [Sent (PutObjectCommand input)]
    ∧ put_Key input = key ∧ put_Body input = Some buf ∧ put_ContentType input = ct
    ∧ (opt_cacheControl opts = None →
       put_CacheControl input = Some "public, max-age=31536000")
    ∧ (opt_storageClass opts = None → put_StorageClass input = Some "STANDARD")
    ∧ (opt_serverSideEncryption opts = None →
       put_ServerSideEncryption input = Some "AES256")
    ∧ (∀ result env',
         send (PutObjectCommand input) (Date_now (env w)).2 = (Return result, env') →
         ∃ res w',
           uploadFile key (Some buf) ct opts w = (Return res, w')
           ∧ up_sdk res = result ∧ up_fileSize res = length buf
           ∧ up_key res = key ∧ up_contentType res = ct)
    ∧ (∀ e env',
         send (PutObjectCommand input) (Date_now (env w)).2 = (Throw e, env') →
         (uploadFile key (Some buf) ct opts w).1
           = Throw (Error ("Upload failed: " +:+ message e))).
Proof.
  intros Hk. rewrite (uploadFile_sends key buf ct opts w Hk).
  eexists. split_and!.
  - by destruct (send _ _) as [[r | e] e2].
  - done.
  - done.
  - done.
  - by intros ->.
  - by intros ->.
  - by intros ->.
  - intros result env' ->. eauto 10.
  - by intros e env' ->.
Qed.

Lemma downloadFile_sends key opts w :
  truthy key = true →
  let start := Date_now (env w) in
  let command := GetObjectCommand
    {| get_Bucket := BUCKET_NAME;
       get_Key := key;
       get_Range := when_truthy (opt_range opts);
       get_IfNoneMatch := when_truthy (opt_ifNoneMatch opts);
       get_IfModifiedSince := when_truthy (opt_ifModifiedSince opts);
       get_ResponseCacheControl := when_truthy (opt_responseCacheControl opts);
       get_ResponseContentType := when_truthy (opt_responseContentType opts) |} in
  downloadFile key opts w =
    match send command start.2 with
    | (Return result, env') =>
      let finish := Date_now env' in
      (Return {| down_sdk := result; down_key := key;
                 down_downloadedAt := toISOString (Date_now finish.2).1;
                 down_downloadTime := (finish.1 - start.1)%Z |},
       {| env := (Date_now finish.2).2; calls := calls w ++ [Sent command] |})
    | (Throw e, env') =>
      (Throw (Error
         (if String.eqb (name e) "NoSuchKey"
          then "File not found: " +:+ key_toString key
          else if String.eqb (name e) "AccessDenied"
          then "Access denied for file: " +:+ key_toString key
          else "Download failed: " +:+ message e)),
       {| env := env'; calls := calls w ++ [Sent command] |})
    end.
Proof.
  intros Hk start command. unfold downloadFile. run_monad. rewrite Hk.
  subst start command. destruct (Date_now (env w)) as [t e1]. simpl.
  destruct (send _ e1) as [[r | e] e2]; simpl.
  - destruct (Date_now e2) as [t2 e3]. simpl. by destruct (Date_now e3).
  - by destruct (String.eqb (name e) "NoSuchKey"), (String.eqb (name e) "AccessDenied").
Qed.

(** X2: a download with a key sends exactly one request, in which a
    conditional or range parameter appears only when the caller gave a
    non-empty value. A failure named [NoSuchKey] becomes [File not found]
    with the key, one named [AccessDenied] becomes [Access denied for file]
    with the key, and any other failure becomes [Download failed] with the
    cause; when the service answers, the download time reported is the
    difference of the clock readings around the request. *)
Theorem downloadFile_outcome key opts w :
  truthy key = true →
  ∃ input,
    calls (downloadFile key opts w).2 = calls w ++ [Sent (GetObjectCommand input)]
    ∧ get_Key input = key
    ∧ (get_Range input = None ↔
       opt_range opts = None ∨ opt_range opts = Some EmptyString)
    ∧ (∀ s, get_Range input = Some s → opt_range opts = Some s)
    ∧ (∀ e env',
         send (GetObjectCommand input) (Date_now (env w)).2 = (Throw e, env') →
         (name e = "NoSuchKey" →
          (downloadFile key opts w).1
            = Throw (Error ("File not found: " +:+ key_toString key)))
         ∧ (name e ≠ "NoSuchKey" → name e = "AccessDenied" →
            (downloadFile key opts w).1
              = Throw (Error ("Access denied for file: " +:+ key_toString key)))
         ∧ (name e ≠ "NoSuchKey" → name e ≠ "AccessDenied" →
            (downloadFile key opts w).1
              = Throw (Error ("Download failed: " +:+ message e))))
    ∧ (∀ result env',
         send (GetObjectCommand input) (Date_now (env w)).2 = (Return result, env') →
         ∃ res w',
           downloadFile key opts w = (Return res, w')
           ∧ down_sdk res = result ∧ down_key res = key
           ∧ down_downloadTime res
             = ((Date_now env').1 - (Date_now (env w)).1)%Z).
Proof.
  intros Hk. rewrite (downloadFile_sends key opts w Hk).
  eexists. split_and!.
  - by destruct (send _ _) as [[r | e] e2].
  - done.
  - simpl. unfold when_truthy.
    destruct (opt_range opts) as [[| c s] |]; simpl; intuition congruence.
  - simpl. unfold when_truthy. intros s.
    destruct (opt_range opts) as [[| c s'] |]; simpl; congruence.
  - intros e env' ->. simpl. split_and!.
    + by intros ->.
    + intros H1%String.eqb_neq H2. by rewrite H1, H2.
    + intros H1%String.eqb_neq H2%String.eqb_neq. by rewrite H1, H2.
  - intros result env' ->. eauto 10.
Qed.

(** X3: a delete with a key sends exactly one request, for that key; the
    call returns when the service answers and fails with the cause under
    the prefix [Delete failed] when the request fails. The facade does not
    look at what the service deleted: the answer is passed on as it is. *)
Theorem deleteFile_outcome key w :
  truthy key = true →
  calls (deleteFile key w).2 = calls w ++ [Sent (DeleteObjectCommand BUCKET_NAME key)]
  ∧ (∀ result env',
       send (DeleteObjectCommand BUCKET_NAME key) (env w) = (Return result, env') →
       ∃ res w',
         deleteFile key w = (Return res, w')
         ∧ del_sdk res = result ∧ del_key res = key
         ∧ del_deletedAt res = toISOString (Date_now env').1)
  ∧ (∀ e env',
       send (DeleteObjectCommand BUCKET_NAME key) (env w) = (Throw e, env') →
       deleteFile key w =
         (Throw (Error ("Delete failed: " +:+ message e)),
          {| env := env'; calls := calls w ++ [Sent (DeleteObjectCommand BUCKET_NAME key)] |})).
Proof.
  intros Hk. unfold deleteFile. run_monad. rewrite Hk.
  destruct (send _ (env w)) as [[r | e] e1] eqn:Hs; simpl.
  - destruct (Date_now e1) as [t e2] eqn:Hd. simpl. split_and!; [done | | done].
    intros result env' [= <- <-]. rewrite Hd. eauto 10.
  - split_and!; [done | done |]. by intros e' env' [= <- <-].
Qed.

(** *** The shape of the failures *)

Lemma try_catch_throws {W A} (body : M W A) (handler : JsError → M W A) (st : W) e :
  (try_catch body handler st).1 = Throw e →
  ∃ e0 st0, (handler e0 st0).1 = Throw e.
Proof.
  unfold try_catch. destruct (body st) as [[a | e0] st0]; simpl; [done | eauto].
Qed.

(** X4: whatever goes wrong in an operation of the facade, the failure it
    raises is a plain [Error] whose message starts with the prefix of the
    operation: the name the storage SDK gave to the failure never reaches
    the caller. *)
Theorem facade_failures_are_plain key buf ct uopts dopts keys operation expiresIn w e :
  ((uploadFile key buf ct uopts w).1 = Throw e →
   name e = "Error" ∧ String.prefix "Upload failed: " (message e) = true)
  ∧ ((downloadFile key dopts w).1 = Throw e →
     name e = "Error"
     ∧ (String.prefix "File not found: " (message e) = true
        ∨ String.prefix "Access denied for file: " (message e) = true
        ∨ String.prefix "Download failed: " (message e) = true))
  ∧ ((deleteFile key w).1 = Throw e →
     name e = "Error" ∧ String.prefix "Delete failed: " (message e) = true)
  ∧ ((deleteFiles keys w).1 = Throw e →
     name e = "Error" ∧ String.prefix "Batch delete failed: " (message e) = true)
  ∧ ((getFileMetadata key w).1 = Throw e →
     name e = "Error" ∧ String.prefix "Get metadata failed: " (message e) = true)
  ∧ ((generateSignedUrl key operation expiresIn w).1 = Throw e →
     name e = "Error"
     ∧ String.prefix "Generate signed URL failed: " (message e) = true).
Proof.
  split_and!; intros (e0 & w0 & Hh)%try_catch_throws.
  - injection Hh as <-. split; [done | apply DashboardSpec.prefix_append].
  - destruct (String.eqb (name e0) "NoSuchKey"); [| destruct (String.eqb (name e0) "AccessDenied")];
      injection Hh as <-; (split; [done |]).
    + left. apply DashboardSpec.prefix_append.
    + right. left. apply DashboardSpec.prefix_append.
    + right. right. apply DashboardSpec.prefix_append.
  - injection Hh as <-. split; [done | apply DashboardSpec.prefix_append].
  - injection Hh as <-. split; [done | apply DashboardSpec.prefix_append].
  - destruct (String.eqb (name e0) "NotFound" || String.eqb (name e0) "NoSuchKey").
    + revert Hh. run_monad. by destruct (Date_now (env w0)).
    + injection Hh as <-. split; [done | apply DashboardSpec.prefix_append].
  - injection Hh as <-. split; [done | apply DashboardSpec.prefix_append].
Qed.

(** *** getFileMetadata and the functions derived from it *)

(** X5: a metadata query with a key sends exactly one request. When it
    fails for a reason other than a missing object (a timeout, a denied
    access), [getMetadata] fails with the cause under the prefix
    [Get metadata failed], while [exists] resolves to [false] and [getSize]
    to [null], exactly as they do for a missing object. *)
Theorem getFileMetadata_outage key w e env' :
  truthy key = true →
  send (HeadObjectCommand BUCKET_NAME key) (env w) = (Throw e, env') →
  name e ≠ "NotFound" →
  name e ≠ "NoSuchKey" →
  let w' := {| env := env';
               calls := calls w ++ [Sent (HeadObjectCommand BUCKET_NAME key)] |} in
  getFileMetadata key w = (Throw (Error ("Get metadata failed: " +:+ message e)), w')
  ∧ fileExists key w = (Return false, w')
  ∧ getFileSize key w = (Return SizeNull, w').
Proof.
  intros Hk Hs H1%String.eqb_neq H2%String.eqb_neq w'.
  assert (getFileMetadata key w
          = (Throw (Error ("Get metadata failed: " +:+ message e)), w')) as Hmd.
  { unfold getFileMetadata. run_monad. by rewrite Hk, Hs, H1, H2. }
  rewrite StorageSpec.fileExists_of_metadata, StorageSpec.getFileSize_of_metadata.
  by rewrite Hmd.
Qed.

(** X6: [exists] and [getSize] agree and cost the same: on the same world
    they leave the same world behind, and [getSize] resolves to [null]
    exactly when [exists] resolves to [false]. *)
Theorem exists_and_size_agree key w :
  (fileExists key w).2 = (getFileSize key w).2
  ∧ ((fileExists key w).1 = Return false ↔ (getFileSize key w).1 = Return SizeNull)
  ∧ ((fileExists key w).1 = Return true ↔
     ∃ md w', getFileMetadata key w = (Return md, w')
              ∧ (getFileSize key w).1 = Return (md_ContentLength md)
              ∧ md_ContentLength md ≠ SizeNull).
Proof.
  rewrite StorageSpec.fileExists_of_metadata, StorageSpec.getFileSize_of_metadata.
  assert (∀ md, md_ContentLength md ≠ SizeNull) as Hne.
  { intros md. unfold md_ContentLength.
    destruct (md_sdk md) as [r |]; [destruct (ContentLength r) |]; done. }
  destruct (getFileMetadata key w) as [[md | e] w']; simpl.
  - split_and!; [done | |].
    + destruct (md_exists md); split; intros [=]; try done. by destruct (Hne md).
    + split.
      * intros [= Hex]. exists md, w'. by rewrite Hex.
      * intros (md' & w'' & [= <- <-] & Hsize & _).
        destruct (md_exists md); [done |]. injection Hsize as Hsize.
        by destruct (Hne md).
  - split_and!; [done | done |].
    split; [done | by intros (? & ? & ? & _)].
Qed.

(** *** Batch deletion: a failing batch, and the errors of the answers *)

Lemma sendAll_throws (cs : list Command) w e w' :
  sendAll cs w = (Throw e, w') →
  ∃ n, n < length cs ∧ calls w' = calls w ++ take (S n) (Sent <$> cs).
Proof.
  revert w. induction cs as [| c cs IH]; intros w; simpl; [done |].
  unfold mbind at 1, M_bind at 1, r2Client_send.
  destruct (send c (env w)) as [[r | e0] e1]; simpl.
  - set (w1 := {| env := e1; calls := calls w ++ [Sent c] |}).
    unfold mbind, M_bind.
    destruct (sendAll cs w1) as [[rs | e1'] w2] eqn:Hs; simpl; [done |].
    intros [= <- <-]. destruct (IH w1 Hs) as (n & Hn & Hc).
    exists (S n). split; [lia |]. rewrite Hc. simpl. by rewrite <- app_assoc.
  - intros [= <- <-]. exists 0. split; [lia | done].
Qed.

(** X7: a batch that fails aborts the batch deletion: the call fails with
    the cause under the prefix [Batch delete failed], the batches before
    the failing one have been sent (and are not undone), and none of the
    batches after it is sent. In particular, when the first batch fails,
    that request is the only one sent. *)
Theorem deleteFiles_aborts (keys : list JsKey) w :
  keys ≠ [] →
  let batches := chunks maxBatchSize keys in
  let requests := (λ batch, Sent (deleteObjects batch)) <$> batches in
  (∀ e w', sendAll (deleteObjects <$> batches) w = (Throw e, w') →
     deleteFiles (Some keys) w
       = (Throw (Error ("Batch delete failed: " +:+ message e)), w')
     ∧ ∃ n, n < length batches ∧ calls w' = calls w ++ take (S n) requests)
  ∧ (∀ e env',
       send (deleteObjects (take maxBatchSize keys)) (env w) = (Throw e, env') →
       deleteFiles (Some keys) w
         = (Throw (Error ("Batch delete failed: " +:+ message e)),
            {| env := env';
               calls := calls w ++ [Sent (deleteObjects (take maxBatchSize keys))] |})).
Proof.
  intros Hne batches requests.
  assert (requests = Sent <$> (deleteObjects <$> batches)) as Hreq.
  { unfold requests. by rewrite <- list_fmap_compose. }
  split.
  - intros e w' Hs. rewrite StorageSpec.deleteFiles_batches by done.
    fold batches. rewrite Hs. split; [done |].
    rewrite Hreq. destruct (sendAll_throws _ _ _ _ Hs) as (n & Hn & Hc).
    exists n. by rewrite length_fmap in Hn.
  - intros e env' Hs. rewrite StorageSpec.deleteFiles_batches by done.
    rewrite (StorageSpec.chunks_step maxBatchSize keys)
      by (done || (unfold maxBatchSize; lia)).
    simpl. unfold mbind at 1, M_bind at 1, r2Client_send. by rewrite Hs.
Qed.

Lemma length_concat_errors (results : list SdkOutput) :
  length (concat (errorsOf <$> results))
    = sum_list_with (λ r, length (errorsOf r)) results.
Proof.
  induction results as [| r results IH]; [done |].
  rewrite fmap_cons. change (concat (?x :: ?l)) with (x ++ concat l).
  by rewrite length_app, IH.
Qed.

(** X8: errors that the service reports for single objects do not make the
    batch deletion fail: when every request is answered the call returns,
    and its list of errors is the errors of the answers, batch after batch,
    in the order the service gave them. *)
Theorem deleteFiles_reports_object_errors (keys : list JsKey) w results w' :
  keys ≠ [] →
  sendAll (deleteObjects <$> chunks maxBatchSize keys) w = (Return results, w') →
  ∃ res w'',
    deleteFiles (Some keys) w = (Return res, w'')
    ∧ bd_results res = results
    ∧ bd_errors res = concat (errorsOf <$> results)
    ∧ length (bd_errors res) = sum_list_with (λ r, length (errorsOf r)) results
    ∧ bd_deletedAt res = toISOString (Date_now (env w')).1.
Proof.
  intros Hne Hs. rewrite StorageSpec.deleteFiles_batches by done. rewrite Hs.
  eexists _, _. split; [reflexivity |]. simpl. split_and!; try done.
  apply length_concat_errors.
Qed.

(** *** generateSignedUrl *)

(** X9: when the signer module loads and the signer answers, the outcome
    of [generateSignedUrl] depends on the expiry instant, the clock reading
    taken after the signature plus the lifetime (the caller's, or 3600
    seconds) in milliseconds. When it is a time value a [Date] can hold,
    the result carries the URL, the key as it was given, the lifetime and
    that instant as expiry time; when it is not, the call fails with
    [Invalid time value] under the prefix of the operation, the signer
    having been called. *)
Theorem generateSignedUrl_expiry key operation expiresIn w command env' url env'' :
  importPresigner (env w) = (Return (), env') →
  (default "getObject" operation = "getObject" ∧ command = bareGetObject key)
  ∨ (default "getObject" operation = "putObject" ∧ command = barePutObject key) →
  getSignedUrl command (default 3600%Z expiresIn) env' = (Return url, env'') →
  let expiry := ((Date_now env'').1 + default 3600%Z expiresIn * 1000)%Z in
  ((- maxTimeValue ≤ expiry ≤ maxTimeValue)%Z →
   ∃ res w',
     generateSignedUrl key operation expiresIn w = (Return res, w')
     ∧ su_url res = url ∧ su_key res = key
     ∧ su_expiresIn res = default 3600%Z expiresIn
     ∧ su_expiresAt res = toISOString expiry
     ∧ su_generatedAt res = toISOString (Date_now (Date_now env'').2).1)
  ∧ (¬ (- maxTimeValue ≤ expiry ≤ maxTimeValue)%Z →
     generateSignedUrl key operation expiresIn w
       = (Throw (Error "Generate signed URL failed: Invalid time value"),
          {| env := (Date_now env'').2;
             calls := calls w ++ [Signed command (default 3600%Z expiresIn)] |})).
Proof.
  intros Hi Hop Hs expiry.
  rewrite (StorageSpec.generateSignedUrl_signed key operation expiresIn w _ _ _ _ Hi Hop Hs).
  fold expiry. split; intros Hrange.
  - rewrite decide_True by done. eauto 10.
  - by rewrite decide_False.
Qed.

(** X10: [generateSignedUrl] never sends a request to the storage service:
    the only call it can make is one call of the signer. When the signer
    module does not load, or the signer fails, the call fails with the
    cause under the prefix [Generate signed URL failed]. *)
Theorem generateSignedUrl_is_local key operation expiresIn w :
  (calls (generateSignedUrl key operation expiresIn w).2 = calls w
   ∨ ∃ command,
       calls (generateSignedUrl key operation expiresIn w).2
         = calls w ++ [Signed command (default 3600%Z expiresIn)]
       ∧ (command = bareGetObject key ∨ command = barePutObject key))
  ∧ (∀ e env', importPresigner (env w) = (Throw e, env') →
       generateSignedUrl key operation expiresIn w
         = (Throw (Error ("Generate signed URL failed: " +:+ message e)),
            {| env := env'; calls := calls w |}))
  ∧ (∀ command env' e env'',
       importPresigner (env w) = (Return (), env') →
       (default "getObject" operation = "getObject" ∧ command = bareGetObject key)
       ∨ (default "getObject" operation = "putObject" ∧ command = barePutObject key) →
       getSignedUrl command (default 3600%Z expiresIn) env' = (Throw e, env'') →
       generateSignedUrl key operation expiresIn w
         = (Throw (Error ("Generate signed URL failed: " +:+ message e)),
            {| env := env'';
               calls := calls w ++ [Signed command (default 3600%Z expiresIn)] |})).
Proof.
  split_and!.
  - unfold generateSignedUrl, Date_toISOString. run_monad.
    destruct (importPresigner (env w)) as [[[] | e] e1]; simpl; [| by left].
    destruct (String.eqb (default "getObject" operation) "getObject").
    { right. exists (bareGetObject key). split; [| by left]. simpl.
      destruct (getSignedUrl _ _ e1) as [[u | e] e2]; simpl; [| done].
      destruct (Date_now e2) as [t1 e3]; simpl.
      case_decide; simpl; [| done]. by destruct (Date_now e3). }
    destruct (String.eqb (default "getObject" operation) "putObject"); [| by left].
    right. exists (barePutObject key). split; [| by right]. simpl.
    destruct (getSignedUrl _ _ e1) as [[u | e] e2]; simpl; [| done].
    destruct (Date_now e2) as [t1 e3]; simpl.
    case_decide; simpl; [| done]. by destruct (Date_now e3).
  - intros e env' Hi. unfold generateSignedUrl. run_monad. by rewrite Hi.
  - intros command env' e env'' Hi Hop Hs.
    unfold generateSignedUrl. run_monad. rewrite Hi. simpl.
    destruct Hop as [[-> ->] | [-> ->]]; simpl; by rewrite Hs.
Qed.

End Outcomes.

(** *** Listing and health check *)

Section ListingOutcomes.
Import Listing.
Context {Env : Type} `{!Backend Env} `{!ListingBackend Env}.

Implicit Types (w : ListWorld Env).

Ltac run_listing :=
  unfold try_catch, clockISO, clockNow, r2Client_sendList, throw,
    mbind, M_bind, mret, M_ret; simpl.

(** X11: the health check never fails. It sends one listing request, for
    at most one key; when the service answers, the status is [healthy] and
    the response time is the difference of the clock readings around the
    request; when the request fails, the status is [unhealthy] and the
    result carries the message of the failure. *)
Theorem checkR2Health_never_fails w :
  (∃ h w', checkR2Health w = (Return h, w'))
  ∧ listed (checkR2Health w).2 = listed w ++ [healthProbe]
  ∧ list_MaxKeys healthProbe = 1%Z
  ∧ (∀ result env',
       sendList healthProbe (Date_now (lenv w)).2 = (Return result, env') →
       ∃ h w',
         checkR2Health w = (Return h, w')
         ∧ h_status h = "healthy"
         ∧ h_responseTime h = Some ((Date_now env').1 - (Date_now (lenv w)).1)%Z
         ∧ h_error h = None)
  ∧ (∀ e env',
       sendList healthProbe (Date_now (lenv w)).2 = (Throw e, env') →
       ∃ h w',
         checkR2Health w = (Return h, w')
         ∧ h_status h = "unhealthy"
         ∧ h_responseTime h = None
         ∧ h_error h = Some (message e)).
Proof.
  unfold checkR2Health. run_listing.
  destruct (Date_now (lenv w)) as [t0 e0]. simpl.
  destruct (sendList healthProbe e0) as [[r | e] e1]; simpl.
  - destruct (Date_now e1) as [t1 e2] eqn:H1. simpl.
    destruct (Date_now e2) as [t2 e3]. simpl.
    split_and!; [eauto | done | done | | done].
    intros result env' [= <- <-]. rewrite H1. eauto 10.
  - destruct (Date_now e1) as [t1 e2]. simpl.
    split_and!; [eauto | done | done | done |].
    intros e' env' [= <- <-]. eauto 10.
Qed.

Lemma keyCount_or_zero_default (x : option Z) : keyCount_or_zero x = default 0%Z x.
Proof.
  destruct x as [n |]; simpl; [| done].
  destruct (Z.eqb_spec n 0); by subst.
Qed.

(** X12: a listing sends exactly one request, whatever its arguments (no
    argument is validated). The prefix is the caller's or the empty string,
    the page size the caller's or 1000; a continuation token, delimiter or
    start key appears only when it is a non-empty string, the owner flag
    only when it is [true]. When the service answers, the result counts
    the keys ([0] when the answer has no count), tells whether more pages
    follow ([false] when the answer does not say) and carries the next
    token ([null] when the answer has none or an empty one); when the
    request fails, the call fails with the cause under the prefix
    [List files failed]. *)
Theorem listfiles_outcome (prefix : option string) (options : ListOptions) w :
  ∃ input,
    listed (listfiles prefix options w).2 = listed w ++ [input]
    ∧ list_Prefix input = Some (default EmptyString prefix)
    ∧ list_MaxKeys input = default 1000%Z (lo_maxKeys options)
    ∧ (list_ContinuationToken input = None ↔
       lo_continuationToken options = None
       ∨ lo_continuationToken options = Some EmptyString)
    ∧ (∀ s, list_ContinuationToken input = Some s → lo_continuationToken options = Some s)
    ∧ (list_FetchOwner input = Some true ↔ lo_fetchOwner options = Some true)
    ∧ (list_FetchOwner input = None ↔ lo_fetchOwner options ≠ Some true)
    ∧ (∀ result env',
         sendList input (lenv w) = (Return result, env') →
         ∃ res w',
           listfiles prefix options w = (Return res, w')
           ∧ lr_sdk res = result
           ∧ lr_totalFiles res = default 0%Z (KeyCount result)
           ∧ lr_hasMore res = default false (IsTruncated result)
           ∧ (lr_nextToken res = None ↔
              NextContinuationToken result = None
              ∨ NextContinuationToken result = Some EmptyString)
           ∧ (∀ s, lr_nextToken res = Some s → NextContinuationToken result = Some s))
    ∧ (∀ e env',
         sendList input (lenv w) = (Throw e, env') →
         listfiles prefix options w
           = (Throw (Error ("List files failed: " +:+ message e)),
              {| lenv := env'; listed := listed w ++ [input] |})).
Proof.
  unfold listfiles. run_listing. eexists. split_and!.
  - destruct (sendList _ (lenv w)) as [[r | e] e1]; simpl; [| done].
    by destruct (Date_now e1).
  - done.
  - done.
  - simpl. unfold string_when_truthy.
    destruct (lo_continuationToken options) as [[| c s] |]; simpl; intuition congruence.
  - simpl. unfold string_when_truthy. intros s.
    destruct (lo_continuationToken options) as [[| c s'] |]; simpl; congruence.
  - simpl. destruct (lo_fetchOwner options) as [[|] |]; simpl; intuition congruence.
  - simpl. destruct (lo_fetchOwner options) as [[|] |]; simpl; intuition congruence.
  - intros result env' ->. simpl. destruct (Date_now env') as [t e2]. simpl.
    eexists _, _. split; [reflexivity |]. simpl.
    rewrite keyCount_or_zero_default. split_and!; try done.
    + unfold string_when_truthy.
      destruct (NextContinuationToken result) as [[| c s] |]; simpl; intuition congruence.
    + unfold string_when_truthy. intros s.
      destruct (NextContinuationToken result) as [[| c s'] |]; simpl; congruence.
  - by intros e env' ->.
Qed.

End ListingOutcomes.

(** *** The operations run against the scripted backends *)

Import Listing Fixtures.

Lemma uploadFile_outcome_witness :
  ∃ res w',
    uploadFile (KStr "posts/cover.png") (Some [Byte.x89; Byte.x50]) (Some "image/png")
      no_options (scripted [Return noOutput]) = (Return res, w')
    ∧ up_fileSize res = 2.
Proof.
  destruct (uploadFile_outcome (KStr "posts/cover.png") [Byte.x89; Byte.x50]
              (Some "image/png") no_options (scripted [Return noOutput]) eq_refl)
    as (input & _ & _ & _ & _ & _ & _ & _ & Hanswered & _).
  destruct (Hanswered noOutput {| replies := []; clock := 1 |} eq_refl)
    as (res & w' & Hrun & _ & Hsize & _).
  by exists res, w'.
Defined.

Lemma downloadFile_outcome_witness :
  (downloadFile (KStr "posts/cover.png") noDownloadOptions
     (scripted [Throw (mkJsError "NoSuchKey" "The specified key does not exist.")])).1
  = Throw (Error "File not found: posts/cover.png").
Proof.
  destruct (downloadFile_outcome (KStr "posts/cover.png") noDownloadOptions
              (scripted [Throw (mkJsError "NoSuchKey" "The specified key does not exist.")])
              eq_refl)
    as (input & _ & _ & _ & _ & Hfails & _).
  destruct (Hfails (mkJsError "NoSuchKey" "The specified key does not exist.")
              {| replies := []; clock := 1 |} eq_refl) as [Hmissing _].
  by apply Hmissing.
Defined.

Lemma deleteFile_outcome_witness :
  deleteFile (KStr "posts/cover.png") (scripted [])
  = (Throw (Error "Delete failed: socket hang up"),
     {| env := {| replies := []; clock := 0 |};
        calls := [Sent (DeleteObjectCommand "blog" (KStr "posts/cover.png"))] |}).
Proof.
  destruct (deleteFile_outcome (KStr "posts/cover.png") (scripted []) eq_refl)
    as (_ & _ & Hfails).
  apply (Hfails (mkJsError "TimeoutError" "socket hang up") {| replies := []; clock := 0 |}).
  reflexivity.
Defined.

Lemma facade_failures_are_plain_witness :
  (getFileMetadata (KStr "posts/cover.png")
     (scripted [Throw (mkJsError "AccessDenied" "Access Denied")])).1
    = Throw (Error "Get metadata failed: Access Denied")
  ∧ name (Error "Get metadata failed: Access Denied") = "Error"
  ∧ String.prefix "Get metadata failed: "
      (message (Error "Get metadata failed: Access Denied")) = true.
Proof.
  destruct (facade_failures_are_plain (KStr "posts/cover.png") None None no_options
              noDownloadOptions None None None
              (scripted [Throw (mkJsError "AccessDenied" "Access Denied")])
              (Error "Get metadata failed: Access Denied"))
    as (_ & _ & _ & _ & Hmd & _).
  split; [reflexivity | apply Hmd; reflexivity].
Defined.

Lemma getFileMetadata_outage_witness :
  fileExists (KStr "posts/cover.png") (scripted [])
  = (Return false,
     {| env := {| replies := []; clock := 0 |};
        calls := [Sent (HeadObjectCommand "blog" (KStr "posts/cover.png"))] |}).
Proof.
  destruct (getFileMetadata_outage (KStr "posts/cover.png") (scripted [])
              (mkJsError "TimeoutError" "socket hang up") {| replies := []; clock := 0 |})
    as (_ & Hexists & _); [reflexivity | reflexivity | discriminate | discriminate |].
  exact Hexists.
Defined.

Lemma deleteFiles_aborts_witness :
  ∃ w',
    deleteFiles (Some keys2500)
      (scripted [Return (deletedReport 1000); Throw (mkJsError "SlowDown" "Reduce your request rate")])
    = (Throw (Error "Batch delete failed: Reduce your request rate"), w')
    ∧ length (calls w') = 2.
Proof.
  set (w := scripted [Return (deletedReport 1000);
                      Throw (mkJsError "SlowDown" "Reduce your request rate")]).
  destruct (deleteFiles_aborts keys2500 w) as [Hab _]; [discriminate |].
  destruct (Hab (mkJsError "SlowDown" "Reduce your request rate")
              (sendAll (deleteObjects <$> chunks maxBatchSize keys2500) w).2)
    as [Hrun _]; [vm_compute; reflexivity |].
  eexists. split; [exact Hrun |]. vm_compute. reflexivity.
Defined.

Lemma deleteFiles_reports_object_errors_witness :
  ∃ res w',
    deleteFiles (Some [KStr "posts/a.png"; KStr "posts/b.png"])
      (scripted [Return partialReport]) = (Return res, w')
    ∧ bd_deletedCount res = 1
    ∧ length (bd_errors res) = 1.
Proof.
  destruct (deleteFiles_reports_object_errors
              [KStr "posts/a.png"; KStr "posts/b.png"] (scripted [Return partialReport])
              [partialReport]
              {| env := {| replies := []; clock := 0 |};
                 calls := [Sent (deleteObjects [KStr "posts/a.png"; KStr "posts/b.png"])] |})
    as (res & w' & Hrun & Hres & _ & Hlen & _); [discriminate | reflexivity |].
  exists res, w'. split_and!; [exact Hrun | | exact Hlen].
  vm_compute in Hrun. by injection Hrun as <- _.
Defined.

Lemma generateSignedUrl_expiry_witness :
  (∃ res w',
     generateSignedUrl (KStr "posts/cover.png") None None (scripted []) = (Return res, w')
     ∧ su_expiresIn res = 3600%Z
     ∧ su_expiresAt res = "3600000")
  ∧ (generateSignedUrl (KStr "posts/cover.png") None (Some 8640000000001%Z)
       (scripted [])).1
    = Throw (Error "Generate signed URL failed: Invalid time value").
Proof.
  split.
  - destruct (generateSignedUrl_expiry (KStr "posts/cover.png") None None (scripted [])
                (bareGetObject (KStr "posts/cover.png")) {| replies := []; clock := 0 |}
                "https://r2.example/signed" {| replies := []; clock := 0 |})
      as [Hvalid _]; [reflexivity | left; split; reflexivity | reflexivity |].
    destruct Hvalid as (res & w' & Hrun & _ & _ & Hin & Hat & _).
    + vm_compute. split; discriminate.
    + by exists res, w'.
  - destruct (generateSignedUrl_expiry (KStr "posts/cover.png") None
                (Some 8640000000001%Z) (scripted [])
                (bareGetObject (KStr "posts/cover.png")) {| replies := []; clock := 0 |}
                "https://r2.example/signed" {| replies := []; clock := 0 |})
      as [_ Hinvalid]; [reflexivity | left; split; reflexivity | reflexivity |].
    rewrite Hinvalid; [reflexivity |].
    vm_compute. intros [_ Hle]. by apply Hle.
Defined.

Lemma generateSignedUrl_is_local_witness :
  generateSignedUrl (KStr "posts/cover.png") None None (faulty false)
    = (Throw (Error "Generate signed URL failed: Cannot find package"), faulty false)
  ∧ generateSignedUrl (KStr "posts/cover.png") (Some "putObject") (Some 60%Z) (faulty true)
    = (Throw (Error "Generate signed URL failed: no credentials"),
       {| env := {| import_ok := true |};
          calls := [Signed (barePutObject (KStr "posts/cover.png")) 60] |}).
Proof.
  split.
  - destruct (generateSignedUrl_is_local (KStr "posts/cover.png") None None (faulty false))
      as (_ & Himport & _).
    apply (Himport (mkJsError "Error" "Cannot find package") {| import_ok := false |}).
    reflexivity.
  - destruct (generateSignedUrl_is_local (KStr "posts/cover.png") (Some "putObject")
                (Some 60%Z) (faulty true)) as (_ & _ & Hsigner).
    apply (Hsigner (barePutObject (KStr "posts/cover.png")) {| import_ok := true |}
             (mkJsError "CredentialsProviderError" "no credentials")
             {| import_ok := true |});
      [reflexivity | right; split; reflexivity | reflexivity].
Defined.

Lemma checkR2Health_never_fails_witness :
  ∃ h w',
    checkR2Health (listScripted []) = (Return h, w')
    ∧ h_status h = "unhealthy"
    ∧ h_error h = Some "socket hang up".
Proof.
  destruct (checkR2Health_never_fails (listScripted [])) as (_ & _ & _ & _ & Hfails).
  destruct (Hfails (mkJsError "TimeoutError" "socket hang up") {| lreplies := []; lclock := 5 |})
    as (h & w' & Hrun & Hstatus & _ & Herror); [reflexivity |].
  by exists h, w'.
Defined.

Lemma listfiles_outcome_witness :
  ∃ res w',
    listfiles (Some "posts/") noListOptions
      (listScripted [Return {| KeyCount := Some 2%Z; IsTruncated := None;
                               NextContinuationToken := Some EmptyString |}])
    = (Return res, w')
    ∧ lr_totalFiles res = 2%Z
    ∧ lr_hasMore res = false
    ∧ lr_nextToken res = None.
Proof.
  set (answer := {| KeyCount := Some 2%Z; IsTruncated := None;
                    NextContinuationToken := Some EmptyString |}).
  destruct (listfiles_outcome (Some "posts/") noListOptions (listScripted [Return answer]))
    as (input & _ & _ & _ & _ & _ & _ & _ & Hanswered & _).
  destruct (Hanswered answer {| lreplies := []; lclock := 0 |} eq_refl)
    as (res & w' & Hrun & _ & Htotal & Hmore & Htoken & _).
  exists res, w'. split_and!; [exact Hrun | exact Htotal | exact Hmore |].
  apply Htoken. right. reflexivity.
Defined.

End FacadeSpec.

(** * Further properties of the dashboard helper *)

Module HelperSpec.
Import Dashboard.

(** *** The life of a notification *)

Section Lifecycle.
Context {engine : Engine}.

Lemma initNotificationStyles_keeps d :
  bodyChildren (initNotificationStyles d) = bodyChildren d
  ∧ timers (initNotificationStyles d) = timers d
  ∧ nextId (initNotificationStyles d) = nextId d.
Proof. unfold initNotificationStyles. by destruct (keyframes d). Qed.

Lemma showNotification_timers message type duration d :
  timers (showNotification message type duration d).2
    = timers d ++ [{| delay := default 5000%Z duration;
                      callback := SlideOut (nextId d) |}].
Proof.
  unfold showNotification. simpl.
  destruct (initNotificationStyles_keeps d) as (_ & -> & ->). done.
Qed.

Lemma Forall_detach (P : Element → Prop) el (l : list Element) :
  Forall P l → Forall P (detach el l).
Proof.
  rewrite !Forall_forall. intros Hl e [_ He]%list_elem_of_filter. auto.
Qed.

Lemma showNotification_remaining (P : Element → Prop) message type duration d :
  Forall P (bodyChildren d) →
  ∃ remaining,
    bodyChildren (showNotification message type duration d).2
      = remaining ++ [(showNotification message type duration d).1]
    ∧ Forall P remaining.
Proof.
  intros HP. rewrite DashboardSpec.showNotification_children.
  destruct (head (notifications d)) as [existing |].
  - eexists. split; [reflexivity |]. by apply Forall_detach.
  - eexists. split; [reflexivity | done].
Qed.


(** *** Attached elements *)


Lemma attached_not_elem el d : attached el d = false ↔ el ∉ eid <$> bodyChildren d.
Proof. unfold attached. apply bool_decide_eq_false. Qed.



(** After a call of [show] on a page that only this helper changed, the
    body has one child, the element of the call. *)
Lemma showNotification_only_child evs message type duration :
  let shown := showNotification message type duration (run evs emptyDocument) in
  bodyChildren shown.2 = [shown.1].
Proof.
  intros shown.
  assert (notifications shown.2 = [shown.1]) as <-.
  { apply DashboardSpec.showNotification_replaces.
    apply DashboardSpec.run_at_most_one. simpl. lia. }
  symmetry. apply DashboardSpec.notifications_all.
  apply (DashboardSpec.step_children_match _ (EvShow message type duration)).
  apply DashboardSpec.run_children_match. constructor.
Qed.

(** The identifiers in a document are older than the next one. *)
Lemma step_keeps_ids_below d ev :
  Forall (λ e, eid e < nextId d) (bodyChildren d) →
  Forall (λ t, target (callback t) < nextId d) (timers d) →
  Forall (λ e, eid e < nextId (step d ev)) (bodyChildren (step d ev))
  ∧ Forall (λ t, target (callback t) < nextId (step d ev)) (timers (step d ev)).
Proof.
  intros Hn Ht. destruct ev as [message type duration | n | el]; unfold step.
  - destruct (showNotification_remaining _ message type duration d Hn)
      as (remaining & -> & Hsub).
    rewrite showNotification_timers.
    destruct (DashboardSpec.showNotification_fresh message type duration d)
      as [Hid ->].
    split; apply Forall_app; split.
    + eapply Forall_impl; [done |]. simpl. intros ? ?. lia.
    + apply Forall_singleton. rewrite Hid. lia.
    + eapply Forall_impl; [done |]. simpl. intros ? ?. lia.
    + apply Forall_singleton. simpl. lia.
  - destruct (timers d !! n) as [t |] eqn:Hl; [| done].
    assert (target (callback t) < nextId d) as Hlt.
    { rewrite Forall_lookup in Ht. by eapply Ht. }
    assert (Forall (λ t, target (callback t) < nextId d) (delete n (timers d))) as Hd.
    { by apply Forall_delete. }
    unfold runCallback.
    destruct (callback t) as [el | el]; simpl in *;
      match goal with |- context [attached ?x ?y] => destruct (attached x y) end; simpl;
      try done.
    + split.
      * unfold setAnimation. rewrite Forall_fmap. eapply Forall_impl; [done |].
        intros e He. simpl. by destruct (decide (eid e = el)).
      * apply Forall_app. split; [done |]. by apply Forall_singleton.
    + split; [| done]. by apply Forall_detach.
  - simpl. split; [| done]. by apply Forall_detach.
Qed.

Lemma run_keeps_ids_below evs d :
  Forall (λ e, eid e < nextId d) (bodyChildren d) →
  Forall (λ t, target (callback t) < nextId d) (timers d) →
  Forall (λ e, eid e < nextId (run evs d)) (bodyChildren (run evs d))
  ∧ Forall (λ t, target (callback t) < nextId (run evs d)) (timers (run evs d)).
Proof.
  revert d. induction evs as [| ev evs IH]; intros d Hn Ht; simpl; [done |].
  destruct (step_keeps_ids_below d ev Hn Ht). by apply IH.
Qed.

Lemma step_timeout d n t :
  timers d !! n = Some t →
  step d (EvTimeout n)
    = runCallback (callback t)
        {| keyframes := keyframes d; bodyChildren := bodyChildren d;
           nextId := nextId d; timers := delete n (timers d) |}.
Proof. intros Hl. unfold step. by rewrite Hl. Qed.

Lemma runCallback_detached c d :
  attached (target c) d = false → runCallback c d = d.
Proof. intros Ha. destruct c as [el | el]; simpl in *; by rewrite Ha. Qed.



(** X13: a timeout only acts on the notification it was set for. After a
    call of [show], on a page that was only ever changed by this helper,
    letting any of the timeouts that were pending before the call fire
    leaves the new notification in the document, unchanged: the timeout of
    a notification that was replaced never removes its successor. *)
Theorem stale_timeout_spares_successor (evs : list Event) (message : string)
    (type : option string) (duration : option Z) (n : nat) :
  let d := run evs emptyDocument in
  let shown := showNotification message type duration d in
  n < length (timers d) →
  notifications (step shown.2 (EvTimeout n)) = [shown.1]
  ∧ timers (step shown.2 (EvTimeout n)) = delete n (timers shown.2).
Proof.
  intros d shown Hn.
  destruct (run_keeps_ids_below evs emptyDocument) as [_ Hold];
    [constructor | constructor |]. fold d in Hold.
  assert (notifications shown.2 = [shown.1]) as Hone.
  { apply DashboardSpec.showNotification_replaces.
    apply DashboardSpec.run_at_most_one. simpl. lia. }
  assert (bodyChildren shown.2 = [shown.1]) as Hchild.
  { apply showNotification_only_child. }
  destruct (lookup_lt_is_Some_2 (timers d) n Hn) as [t Ht].
  assert (timers shown.2 !! n = Some t) as Hl.
  { unfold shown. rewrite showNotification_timers. by rewrite lookup_app_l. }
  assert (target (callback t) < eid shown.1) as Hlt.
  { rewrite Forall_lookup in Hold. specialize (Hold n t Ht).
    unfold shown. by rewrite (proj1 (DashboardSpec.showNotification_fresh _ _ _ _)). }
  rewrite (step_timeout _ _ _ Hl). rewrite runCallback_detached; [done |].
  apply attached_not_elem. cbn [bodyChildren]. rewrite Hchild.
  cbn [fmap list_fmap]. rewrite list_elem_of_singleton. lia.
Qed.


End Lifecycle.

(** *** The loading state *)

Lemma classList_add_present c (l : list string) : c ∈ l → classList_add c l = l.
Proof. intros Hc. unfold classList_add. by rewrite bool_decide_eq_true_2. Qed.

Lemma classList_add_elem c (l : list string) : c ∈ classList_add c l.
Proof.
  unfold classList_add. case_bool_decide; [done |].
  apply elem_of_app. right. by apply list_elem_of_singleton.
Qed.

Lemma classList_remove_add c (l : list string) :
  classList_remove c (classList_add c l) = classList_remove c l.
Proof.
  unfold classList_add, classList_remove. case_bool_decide; [done |].
  rewrite filter_app, filter_cons_False by auto. by rewrite app_nil_r.
Qed.

Lemma classList_remove_twice c (l : list string) :
  classList_remove c (classList_remove c l) = classList_remove c l.
Proof.
  unfold classList_remove. induction l as [| x l IH]; [done |].
  rewrite (filter_cons _ x l). case_decide; [| done].
  rewrite filter_cons_True by done. by rewrite IH.
Qed.

Section LoadingMore.
Context `{!Dom}.

Lemma setLoading_element_classes b isLoading :
  classList_remove "btn-loading" (btn_classList (setLoading_element b isLoading))
    = classList_remove "btn-loading" (btn_classList b).
Proof.
  unfold setLoading_element. destruct isLoading; simpl.
  - apply classList_remove_add.
  - apply classList_remove_twice.
Qed.

Lemma toggles_classes flags b :
  ∃ b', toggles flags (Some b) = Some b'
        ∧ classList_remove "btn-loading" (btn_classList b')
          = classList_remove "btn-loading" (btn_classList b).
Proof.
  revert b. induction flags as [| f flags IH]; intros b; simpl; [eauto |].
  destruct (IH (setLoading_element b f)) as (b' & -> & Hb').
  exists b'. split; [done |]. by rewrite Hb', setLoading_element_classes.
Qed.

(** X15: a deactivation takes only the class [btn-loading] from the
    button: after any number of toggles followed by a deactivation, the
    classes of the button are the ones it had before, in their order,
    without [btn-loading], and the button is enabled. *)
Theorem deactivation_keeps_other_classes (b : Button) (flags : list bool) :
  ∃ b',
    toggles (flags ++ [false]) (Some b) = Some b'
    ∧ btn_classList b' = classList_remove "btn-loading" (btn_classList b)
    ∧ btn_disabled b' = false
    ∧ (∀ c, c ≠ "btn-loading" → c ∈ btn_classList b' ↔ c ∈ btn_classList b).
Proof.
  destruct (toggles_classes flags b) as (b1 & Hrun & Hb1).
  rewrite DashboardSpec.toggles_app, Hrun. eexists. split; [reflexivity |].
  assert (btn_classList (setLoading_element b1 false)
          = classList_remove "btn-loading" (btn_classList b)) as Hc.
  { by rewrite <- Hb1. }
  split_and!; [done | done |].
  intros c Hc'. rewrite Hc. unfold classList_remove.
  rewrite list_elem_of_filter. tauto.
Qed.

(** The busy indicators contain the marker that [setLoading] looks for. *)
Lemma indicator_has_marker (content : string) :
  content = spinnerHTML ∨ content = spinnerHTML +:+ " Processing..." →
  includes content ("<i class=" +:+ dq +:+ "fas") = true.
Proof. by intros [-> | ->]. Qed.

Lemma setLoading_element_busy b :
  btn_disabled (setLoading_element b true) = true
  ∧ btn_classList (setLoading_element b true)
    = classList_add "btn-loading" (btn_classList b)
  ∧ btn_innerHTML (setLoading_element b true)
    = (if includes (btn_innerHTML b) ("<i class=" +:+ dq +:+ "fas")
       then spinnerHTML else spinnerHTML +:+ " Processing...").
Proof. done. Qed.

Lemma activations_settle b n :
  includes (btn_innerHTML b) ("<i class=" +:+ dq +:+ "fas") = true →
  "btn-loading" ∈ btn_classList b →
  ∃ b', toggles (replicate (S n) true) (Some b) = Some b'
        ∧ btn_innerHTML b' = spinnerHTML
        ∧ btn_classList b' = btn_classList b
        ∧ btn_disabled b' = true.
Proof.
  revert b. induction n as [| n IH]; intros b Hm Hc.
  - destruct (setLoading_element_busy b) as (Hd & Hl & Hh).
    eexists. split; [reflexivity |]. rewrite Hd, Hl, Hh, Hm.
    by rewrite classList_add_present.
  - destruct (setLoading_element_busy b) as (Hd & Hl & Hh).
    rewrite Hm in Hh. rewrite classList_add_present in Hl by done.
    destruct (IH (setLoading_element b true)) as (b' & Hrun & ? & Hcl & ?).
    + rewrite Hh. by apply indicator_has_marker; left.
    + by rewrite Hl.
    + exists b'. split; [exact Hrun |]. by rewrite Hcl, Hl.
Qed.

(** X16: an activation disables the button, adds the class [btn-loading]
    once, and replaces the content by the spinner, followed by the label
    [Processing...] unless the content held an icon. Activations do not
    stack, but they are not without effect either: from the second
    activation in a row on, the content is the bare spinner, the label of
    the first activation is gone, while the classes stay as the first
    activation left them. *)
Theorem repeated_activation (b : Button) (n : nat) :
  let first := setLoading_element b true in
  btn_disabled first = true
  ∧ btn_classList first = classList_add "btn-loading" (btn_classList b)
  ∧ "btn-loading" ∈ btn_classList first
  ∧ (includes (btn_innerHTML b) ("<i class=" +:+ dq +:+ "fas") = false →
     btn_innerHTML first = spinnerHTML +:+ " Processing...")
  ∧ (includes (btn_innerHTML b) ("<i class=" +:+ dq +:+ "fas") = true →
     btn_innerHTML first = spinnerHTML)
  ∧ ∃ b',
      toggles (replicate (S (S n)) true) (Some b) = Some b'
      ∧ btn_innerHTML b' = spinnerHTML
      ∧ btn_classList b' = btn_classList first
      ∧ btn_disabled b' = true.
Proof.
  intros first. destruct (setLoading_element_busy b) as (Hd & Hl & Hh).
  fold first in Hd, Hl, Hh.
  split_and!.
  - done.
  - done.
  - rewrite Hl. apply classList_add_elem.
  - intros Hm. by rewrite Hh, Hm.
  - intros Hm. by rewrite Hh, Hm.
  - apply (activations_settle first n).
    + apply indicator_has_marker. rewrite Hh.
      destruct (includes (btn_innerHTML b) _); auto.
    + rewrite Hl. apply classList_add_elem.
Qed.

(** X17: the original content is captured once. As soon as a non-empty
    original is stored on the button, no call of [setLoading] replaces it,
    and every deactivation writes it back, whatever content the button has
    by then: content the page gave the button since the capture is lost. *)
Theorem stored_original_wins (b : Button) (h : string) (flags : list bool) (f : bool) :
  btn_originalHTML b = Some h →
  truthy_string h = true →
  ∃ b',
    toggles (flags ++ [f]) (Some b) = Some b'
    ∧ btn_originalHTML b' = Some h
    ∧ (f = false → btn_innerHTML b' = h).
Proof.
  intros Hs Hh.
  destruct (DashboardSpec.toggles_restorable h b flags Hh) as (b1 & Hrun & Hb1);
    [by left |].
  rewrite DashboardSpec.toggles_app, Hrun. eexists. split; [reflexivity |].
  by apply DashboardSpec.setLoading_element_restorable.
Qed.

End LoadingMore.

(** *** fetchWithFeedback *)

Section FetchMore.
Context `{!Dom} {engine : Engine}.

Ltac run_fetch :=
  unfold fetchWithFeedback, try_finally, try_catch, setButtonLoading, notify, throw,
    mbind, M_bind, mret, M_ret;
  cbn -[showNotification includes String.eqb setLoading].


(** X19: an answer that is not a success (an HTTP failure status, or an
    envelope whose success flag is not set) whose envelope has no error
    text makes the call fail with the message [Operation failed]. One
    error notification is shown and stays: its text is the message of the
    envelope when it has one, [Operation failed] otherwise. An HTTP failure
    status makes the call fail even when the envelope says success. *)
Theorem fetchWithFeedback_plain_failure (ok : bool) (data : Envelope)
    (successMessage : string) (p : Page) :
  ok && env_success data = false →
  falsy (env_error data) = true →
  let r := fetchWithFeedback (Responded ok (JsonParsed data)) successMessage p in
  r.1 = Throw (Error "Operation failed")
  ∧ document r.2
    = (showNotification (or_else (env_message data) "Operation failed") (Some "error")
         None (document p)).2.
Proof.
  intros Hok Hf r. unfold r. run_fetch. rewrite Hok.
  assert (∀ fallback, or_else (env_error data) fallback = fallback) as Herr.
  { intros fallback. unfold or_else. destruct (env_error data) as [s |]; [| done].
    simpl in Hf. by destruct (truthy_string s). }
  rewrite !Herr. by cbn -[showNotification setLoading].
Qed.

(** X20: a failure of the transport or of the decoding of the answer
    reaches the caller as it is, the same error. Before that, a
    [TypeError] whose message mentions [fetch] shows the network error
    notification; any other error shows the notification for an unexpected
    error, unless its message contains [Operation failed]: then no
    notification is shown at all. *)
Theorem fetchWithFeedback_propagates (e : JsError) (outcome : FetchOutcome)
    (successMessage : string) (p : Page) :
  outcome = FetchRejected e ∨ (∃ ok, outcome = Responded ok (JsonThrows e)) →
  let r := fetchWithFeedback outcome successMessage p in
  r.1 = Throw e
  ∧ document r.2
    = (if String.eqb (name e) "TypeError" && includes (message e) "fetch"
       then (showNotification
               "Network error. Please check your connection and try again."
               (Some "error") None (document p)).2
       else if includes (message e) "Operation failed"
       then document p
       else (showNotification "An unexpected error occurred. Please try again."
               (Some "error") None (document p)).2).
Proof.
  intros Hout r. unfold r.
  destruct Hout as [-> | [ok ->]]; run_fetch;
    destruct (String.eqb (name e) "TypeError" && includes (message e) "fetch");
    cbn -[showNotification includes setLoading]; try done;
    destruct (includes (message e) "Operation failed");
    by cbn -[showNotification includes setLoading].
Qed.

End FetchMore.

(** *** The request *)

Lemma spreadProps_union (source target : gmap string Request.PropValue) :
  Request.spreadProps source target = source ∪ target.
Proof.
  unfold Request.spreadProps.
  apply (map_fold_weak_ind (λ r m, r = m ∪ target)).
  - by rewrite (left_id_L ∅ (∪)).
  - intros k v m r Hk ->. by rewrite insert_union_l.
Qed.

(** X21: the headers of the request are the caller's own whenever the
    caller gives any: the default [Content-Type: application/json] is in
    the request only when the caller gives no headers, or gives that
    header. Every other option of the caller is passed on as it is. *)
Theorem requestInit_headers (options : Request.FetchOptions) :
  Request.requestInit options !! "headers"
    = Some (Request.HeadersProp
              (match Request.fo_headers options with
               | Some own => own
               | None => <["Content-Type" := "application/json"]> ∅
               end))
  ∧ (∀ own, Request.fo_headers options = Some own →
       own !! "Content-Type" = None →
       ∀ h, Request.requestInit options !! "headers" = Some (Request.HeadersProp h) →
            h !! "Content-Type" = None)
  ∧ (∀ k, k ≠ "headers" →
       Request.requestInit options !! k
         = Request.StrProp <$> (Request.fo_others options !! k)).
Proof.
  assert (Request.requestInit options !! "headers"
          = Some (Request.HeadersProp
                    (match Request.fo_headers options with
                     | Some own => own
                     | None => <["Content-Type" := "application/json"]> ∅
                     end))) as Hh.
  { unfold Request.requestInit, Request.optionsObject.
    rewrite spreadProps_union, lookup_union.
    destruct (Request.fo_headers options) as [own |]; simpl.
    - by rewrite lookup_insert_eq.
    - rewrite lookup_delete_eq, lookup_insert_eq, StorageSpec.spread_union.
      by rewrite (left_id_L ∅ (∪)). }
  split_and!.
  - done.
  - intros own Hown Hct h. rewrite Hh, Hown. by intros [= <-].
  - intros k Hk. unfold Request.requestInit, Request.optionsObject.
    rewrite spreadProps_union, lookup_union.
    rewrite lookup_insert_ne, lookup_empty, (right_id_L None union) by done.
    destruct (Request.fo_headers options) as [own |].
    + by rewrite lookup_insert_ne, lookup_fmap by done.
    + by rewrite lookup_delete_ne, lookup_fmap by done.
Qed.

(** *** The helper run on concrete pages *)

#[local] Existing Instance exampleEngine.

Lemma stale_timeout_spares_successor_witness :
  let d := run [EvShow "Saving" None None] emptyDocument in
  let shown := showNotification "Saved" None (Some 2000%Z) d in
  notifications (step shown.2 (EvTimeout 0)) = [shown.1]
  ∧ innerHTML shown.1 = notificationHTML "Saved" "success".
Proof.
  intros d shown.
  destruct (stale_timeout_spares_successor [EvShow "Saving" None None] "Saved" None
              (Some 2000%Z) 0) as [Hkept _].
  - simpl. lia.
  - split; [exact Hkept | reflexivity].
Defined.


Lemma repeated_activation_witness :
  btn_innerHTML (setLoading_element (H := exampleDom) saveButton true)
    = spinnerHTML +:+ " Processing..."
  ∧ ∃ b',
      toggles (H := exampleDom) [true; true] (Some saveButton) = Some b'
      ∧ btn_innerHTML b' = spinnerHTML
      ∧ btn_classList b' = ["btn"; "btn-loading"].
Proof.
  destruct (repeated_activation (H := exampleDom) saveButton 0)
    as (_ & _ & _ & Hlabel & _ & b' & Hrun & Hcontent & Hclasses & _).
  split.
  - apply Hlabel. reflexivity.
  - exists b'. split_and!; [exact Hrun | exact Hcontent | exact Hclasses].
Defined.

Lemma stored_original_wins_witness :
  ∃ b',
    toggles (H := exampleDom) ([true] ++ [false])
      (Some {| btn_innerHTML := "Saved!"; btn_disabled := false; btn_classList := ["btn"];
               btn_originalHTML := Some "Save"; btn_originalText := Some "Save" |})
    = Some b'
    ∧ btn_originalHTML b' = Some "Save"
    ∧ btn_innerHTML b' = "Save".
Proof.
  destruct (stored_original_wins (H := exampleDom)
              {| btn_innerHTML := "Saved!"; btn_disabled := false; btn_classList := ["btn"];
                 btn_originalHTML := Some "Save"; btn_originalText := Some "Save" |}
              "Save" [true] false eq_refl eq_refl)
    as (b' & Hrun & Hstored & Hcontent).
  exists b'. split_and!; [exact Hrun | exact Hstored | by apply Hcontent].
Defined.


Lemma fetchWithFeedback_plain_failure_witness :
  let r := fetchWithFeedback (H := exampleDom)
             (Responded false
                (JsonParsed {| env_success := true; env_message := Some "Session expired";
                               env_error := None |}))
             "Done" {| document := emptyDocument; button := None |} in
  r.1 = Throw (Error "Operation failed")
  ∧ document r.2
    = (showNotification "Session expired" (Some "error") None emptyDocument).2.
Proof.
  intros r.
  apply (fetchWithFeedback_plain_failure (H := exampleDom) false
           {| env_success := true; env_message := Some "Session expired";
              env_error := None |}
           "Done" {| document := emptyDocument; button := None |});
    reflexivity.
Defined.

Lemma fetchWithFeedback_propagates_witness :
  let r := fetchWithFeedback (H := exampleDom)
             (FetchRejected (mkJsError "TypeError" "Failed to fetch"))
             EmptyString {| document := emptyDocument; button := Some saveButton |} in
  r.1 = Throw (mkJsError "TypeError" "Failed to fetch")
  ∧ document r.2
    = (showNotification "Network error. Please check your connection and try again."
         (Some "error") None emptyDocument).2.
Proof.
  intros r.
  destruct (fetchWithFeedback_propagates (H := exampleDom)
              (mkJsError "TypeError" "Failed to fetch")
              (FetchRejected (mkJsError "TypeError" "Failed to fetch"))
              EmptyString {| document := emptyDocument; button := Some saveButton |})
    as [Hthrow Hdoc]; [by left |].
  split; [exact Hthrow | exact Hdoc].
Defined.

Lemma requestInit_headers_witness :
  Request.requestInit
    {| Request.fo_headers := Some {[ "X-CSRF-Token" := "t0k3n" ]};
       Request.fo_others := {[ "method" := "POST" ]} |} !! "headers"
    = Some (Request.HeadersProp {[ "X-CSRF-Token" := "t0k3n" ]})
  ∧ ({[ "X-CSRF-Token" := "t0k3n" ]} : gmap string string) !! "Content-Type" = None.
Proof.
  destruct (requestInit_headers
              {| Request.fo_headers := Some {[ "X-CSRF-Token" := "t0k3n" ]};
                 Request.fo_others := {[ "method" := "POST" ]} |})
    as (Hheaders & Hdropped & _).
  split; [exact Hheaders |].
  apply (Hdropped {[ "X-CSRF-Token" := "t0k3n" ]}); [reflexivity | reflexivity |].
  exact Hheaders.
Defined.

End HelperSpec.
